(** * A vehicle registration system (example-2/wip.py)

    Shallow embedding of the registry of [wip.py] and proofs of its
    specification.  The Python module is modelled as follows.

    - [int] is [Z]; [float] is IEEE-754 binary64, through the executable
      specification of the Standard Library ([SpecFloat], [prec = 53],
      [emax = 1024]); [str] is [string].
    - A raised exception is the [Raise] outcome of a state-and-exception
      monad; the state threaded through the methods of [VehicleRegistry]
      is the registry object ([self]) together with the state of the
      module-level random generator.
    - The dictionary [vehicle_models] is a [gmap] keyed by pairs of
      strings. *)

From Stdlib Require Import ZArith Lia Ascii.
From Stdlib Require Import Floats.SpecFloat.
From stdpp Require Import base gmap strings list fin_maps.

Set Default Proof Using "Type".

(** ** Exceptions and the state-and-exception monad *)

(** [VehicleInfoMissingError]: a dataclass deriving from [Exception], with
    a default value for [message]. *)
Module VehicleInfoMissingError.
Record t : Type := make { brand : string; model : string; message : string }.

Definition default_message : string := "Vehicle information is missing.".

(** The generated [__init__(brand, model, message=...)]. *)
Definition init (brand model : string) (message : option string) : t :=
  make brand model (default default_message message).
End VehicleInfoMissingError.

Inductive exn : Type :=
  | VehicleInfoMissing (e : VehicleInfoMissingError.t)
  | IndexError
  | KeyError
  | OverflowError.

Inductive outcome (A : Type) : Type :=
  | Return (a : A)
  | Raise (e : exn).
Arguments Return {A} a.
Arguments Raise {A} e.

Definition M (S A : Type) : Type := S -> outcome A * S.

Definition ret {S A} (a : A) : M S A := fun s => (Return a, s).

Definition raise {S A} (e : exn) : M S A := fun s => (Raise e, s).

Definition bind {S A B} (c : M S A) (k : A -> M S B) : M S B :=
  fun s =>
    match c s with
    | (Return a, s') => k a s'
    | (Raise e, s') => (Raise e, s')
    end.

(** An exception-only computation (one that touches no state). *)
Definition lift {S A} (o : outcome A) : M S A := fun s => (o, s).

Declare Scope py_scope.
Delimit Scope py_scope with py.
Notation "x <- c ;; k" := (bind c (fun x => k))
  (at level 100, c at next level, right associativity) : py_scope.
Open Scope py_scope.

(** ** Python [float]: IEEE-754 binary64 *)

Module Float.
Definition prec : Z := 53.
Definition emax : Z := 1024.

Abbreviation t := spec_float.

(** [x * y] on floats: the correctly rounded product. *)
Definition mul (x y : t) : t := SFmul prec emax x y.

(** [x / y] on finite non-zero floats: the correctly rounded quotient. *)
Definition div (x y : t) : t := SFdiv prec emax x y.

(** The float nearest to an integer (ties to even); infinite when the
    integer is beyond the range of binary64. *)
Definition nearest_int (n : Z) : t := binary_normalize prec emax n 0 false.

(** Conversion of an [int] operand of a float operation
    ([PyLong_AsDouble]): correctly rounded, and [OverflowError] when the
    rounded value does not fit. *)
Definition of_int (n : Z) : outcome t :=
  match nearest_int n with
  | S754_infinity _ => Raise OverflowError
  | f => Return f
  end.

(** [n / 100] for small integers [n]: the float that the decimal
    literal of [n] hundredths denotes. *)
Definition hundredths (n : Z) : t := div (nearest_int n) (nearest_int 100).

(** The literal [0.02] = 0x1.47ae147ae147bp-6. *)
Definition lit_0_02 : t := S754_finite false 5764607523034235 (-58).

(** The literal [0.05] = 0x1.999999999999ap-5. *)
Definition lit_0_05 : t := S754_finite false 7205759403792794 (-57).

(** [is_int f n]: the float [f] has exactly the integer value [n]. *)
Definition is_int (f : t) (n : Z) : Prop :=
  match f with
  | S754_zero _ => n = 0%Z
  | S754_finite s m e =>
      (cond_Zopp s (Z.pos m) * 2 ^ e = n /\ 0 <= e)%Z
      \/ (cond_Zopp s (Z.pos m) = n * 2 ^ (- e) /\ e < 0)%Z
  | _ => False
  end.
End Float.

(** ** Python [str] operations used by the module

    A [str] is modelled by the bytes of its text.  For a text of ASCII
    characters (the identifiers and plates that the registry builds) a
    byte is a character, and lengths and slices are those of Python; the
    properties of slices below are stated for such texts. *)

Module Str.
(** Iterating over (or indexing) a [str] yields one-character strings. *)
Definition char (c : ascii) : string := String c EmptyString.

Definition chars (s : string) : list string :=
  map char (String.list_ascii_of_string s).

(** [sep.join(parts)]. *)
Fixpoint join (sep : string) (parts : list string) : string :=
  match parts with
  | [] => EmptyString
  | x :: rest =>
      match rest with
      | [] => x
      | _ :: _ => x +:+ sep +:+ join sep rest
      end
  end.

(** [s[:n]] for [0 <= n]: slicing never raises, it truncates. *)
Definition slice_to (n : nat) (s : string) : string := String.substring 0 n s.

(** [string.ascii_uppercase] and [string.digits]. *)
Definition ascii_uppercase : string := "ABCDEFGHIJKLMNOPQRSTUVWXYZ".
Definition digits : string := "0123456789".
End Str.

(** ** The [random] module *)

Module random.
(** The generator is abstracted to the supply of its future draws: any
    function is a possible generator state, so a property proved for all
    states holds for every sequence of random choices. *)
Definition state : Type := nat -> nat.

Definition next : M state nat :=
  fun g => (Return (g 0%nat), fun i => g (S i)).

(** [population[i]]: [IndexError] out of range. *)
Definition getitem {A} (population : list A) (i : nat) : outcome A :=
  match population !! i with
  | Some x => Return x
  | None => Raise IndexError
  end.

(** One element of [population], at an index below [len(population)]
    chosen by the generator. *)
Definition choice {A} (population : list A) : M state A :=
  r <- next ;;
  lift (getitem population (r mod length population)).

(** The list of [k] elements chosen with replacement, one draw each. *)
Fixpoint draws {A} (population : list A) (k : nat) : M state (list A) :=
  match k with
  | O => ret []
  | S k' =>
      x <- choice population ;;
      xs <- draws population k' ;;
      ret (x :: xs)
  end.

(** The count of [itertools.repeat(None, k)], a C [ssize_t] of 64 bits:
    [OverflowError] for an integer outside [-2^63, 2^63), and no element
    for a negative count. *)
Definition repeat_count (k : Z) : outcome nat :=
  if ((k <? - 2 ^ 63) || (2 ^ 63 <=? k))%Z then Raise OverflowError
  else Return (Z.to_nat k).

(** [random.choices(population, k=k)]: the count is converted before the
    first draw. *)
Definition choices {A} (population : list A) (k : Z) : M state (list A) :=
  n <- lift (repeat_count k) ;;
  draws population n.
End random.

(** ** The data model of [wip.py] *)

Inductive FuelType : Type := ELECTRIC | PETROL.

Inductive RegistryStatus : Type := ONLINE | CONNECTION_ERROR | OFFLINE.

#[global] Instance FuelType_eq_dec : EqDecision FuelType.
Proof. solve_decision. Defined.

(** [d[k]] on a dictionary given by its items: [KeyError] for a missing key. *)
Fixpoint dict_getitem {K V} `{EqDecision K} (d : list (K * V)) (k : K) : outcome V :=
  match d with
  | [] => Raise KeyError
  | (k', v) :: d' => if decide (k' = k) then Return v else dict_getitem d' k
  end.

Definition taxes : list (FuelType * Float.t) :=
  [(ELECTRIC, Float.lit_0_02); (PETROL, Float.lit_0_05)].

(** What [datetime.now()] returns; only [year] is read. *)
Record datetime : Type := { year : Z }.

Module VehicleModelInfo.
Record t : Type := make {
  brand : string;
  model : string;
  catalogue_price : Z;
  fuel_type : FuelType;
  production_year : Z
}.

(** The default values of the fields are evaluated once, when the class
    body is executed; [now] is what [datetime.now()] returns then. *)
Record defaults : Type := {
  default_fuel_type : FuelType;
  default_production_year : Z
}.

Definition class_body (now : datetime) : defaults :=
  {| default_fuel_type := ELECTRIC; default_production_year := year now |}.

(** The generated [__init__]: [None] stands for an omitted argument. *)
Definition init (cls : defaults) (brand model : string) (catalogue_price : Z)
    (fuel_type : option FuelType) (production_year : option Z) : t :=
  make brand model catalogue_price
       (default (default_fuel_type cls) fuel_type)
       (default (default_production_year cls) production_year).

(** The [tax] property. *)
Definition tax (self : t) : outcome Float.t :=
  match dict_getitem taxes (fuel_type self) with
  | Raise e => Raise e
  | Return tax_percentage =>
      match Float.of_int (catalogue_price self) with
      | Raise e => Raise e
      | Return price => Return (Float.mul tax_percentage price)
      end
  end.
End VehicleModelInfo.

Module Vehicle.
Record t : Type := make {
  vehicle_id : string;
  license_plate : string;
  info : VehicleModelInfo.t
}.
End Vehicle.

Module VehicleRegistry.
Record t : Type := make {
  vehicle_models : gmap (string * string) VehicleModelInfo.t;
  online : bool
}.

(** [__init__]. *)
Definition init : t := {| vehicle_models := ∅; online := true |}.

(** The state a method runs in: the registry object and the generator of
    the [random] module. *)
Record world : Type := World { self : t; rng : random.state }.

Definition get_self : M world t := fun w => (Return (self w), w).

Definition set_self (r : t) : M world unit :=
  fun w => (Return tt, {| self := r; rng := rng w |}).

(** A static method only touches the generator. *)
Definition static {A} (c : M random.state A) : M world A :=
  fun w =>
    let '(o, g) := c (rng w) in
    (o, {| self := self w; rng := g |}).

Definition add_vehicle_model_info (model_info : VehicleModelInfo.t) : M world unit :=
  this <- get_self ;;
  set_self
    {| vehicle_models :=
         <[(VehicleModelInfo.brand model_info, VehicleModelInfo.model model_info)
           := model_info]> (vehicle_models this);
       online := online this |}.

Definition generate_vehicle_id (length : Z) : M random.state string :=
  picked <- random.choices (Str.chars Str.ascii_uppercase) length ;;
  ret (Str.join "" picked).

Definition generate_vehicle_license (_id : string) : M random.state string :=
  picked <- random.choices (Str.chars Str.digits) 2 ;;
  let digit_part := Str.join "" picked in
  picked <- random.choices (Str.chars Str.ascii_uppercase) 2 ;;
  let letter_part := Str.join "" picked in
  ret (Str.slice_to 2 _id +:+ "-" +:+ digit_part +:+ "-" +:+ letter_part).

(** [dict.get]: [None] for a missing key. *)
Definition find_model_info (brand model : string)
    : M world (option VehicleModelInfo.t) :=
  this <- get_self ;;
  ret (vehicle_models this !! (brand, model)).

(** [if not (vehicle_model := ...)]: [None] is false, and an instance of
    the dataclass (no [__bool__], no [__len__]) is true. *)
Definition register_vehicle (brand model : string) : M world Vehicle.t :=
  found <- find_model_info brand model ;;
  match found with
  | None =>
      raise (VehicleInfoMissing (VehicleInfoMissingError.init brand model None))
  | Some vehicle_model =>
      vehicle_id <- static (generate_vehicle_id 12) ;;
      license_plate <- static (generate_vehicle_license vehicle_id) ;;
      ret (Vehicle.make vehicle_id license_plate vehicle_model)
  end.

Definition online_status : M world RegistryStatus :=
  this <- get_self ;;
  if negb (online this) then ret OFFLINE
  else ret (if (size (vehicle_models this) =? 0)%nat
            then CONNECTION_ERROR else ONLINE).
End VehicleRegistry.

(** ** Histories of calls on a registry *)

Inductive call : Type :=
  | AddVehicleModelInfo (model_info : VehicleModelInfo.t)
  | FindModelInfo (brand model : string)
  | RegisterVehicle (brand model : string)
  | OnlineStatus.

(** The state after one call of a client that catches exceptions. *)
Definition perform (c : call) (w : VehicleRegistry.world) : VehicleRegistry.world :=
  match c with
  | AddVehicleModelInfo i => snd (VehicleRegistry.add_vehicle_model_info i w)
  | FindModelInfo b m => snd (VehicleRegistry.find_model_info b m w)
  | RegisterVehicle b m => snd (VehicleRegistry.register_vehicle b m w)
  | OnlineStatus => snd (VehicleRegistry.online_status w)
  end.

Definition run (cs : list call) (w : VehicleRegistry.world) : VehicleRegistry.world :=
  fold_left (fun w c => perform c w) cs w.

(** The key under which a model is stored. *)
Definition key_of (i : VehicleModelInfo.t) : string * string :=
  (VehicleModelInfo.brand i, VehicleModelInfo.model i).

Definition adds_key (k : string * string) (c : call) : Prop :=
  match c with
  | AddVehicleModelInfo i => key_of i = k
  | _ => False
  end.

(** ** Formats of identifiers and licence plates *)

Definition is_upper (c : ascii) : bool :=
  (65 <=? nat_of_ascii c)%nat && (nat_of_ascii c <=? 90)%nat.

Definition is_digit (c : ascii) : bool :=
  (48 <=? nat_of_ascii c)%nat && (nat_of_ascii c <=? 57)%nat.

Definition all_chars (p : ascii -> bool) (s : string) : bool :=
  forallb p (String.list_ascii_of_string s).

(** A text of ASCII characters only: one byte per character. *)
Definition is_ascii_text (s : string) : bool :=
  all_chars (fun c => (nat_of_ascii c <? 128)%nat) s.

(** [XX-DD-YY]: the first two characters of the identifier, two digits,
    two uppercase letters. *)
Definition plate_format (vehicle_id plate : string) : bool :=
  match String.list_ascii_of_string vehicle_id, String.list_ascii_of_string plate with
  | x1 :: x2 :: _, [p1; p2; h1; d1; d2; h2; y1; y2] =>
      bool_decide (p1 = x1) && bool_decide (p2 = x2)
      && bool_decide (h1 = "-"%char) && is_digit d1 && is_digit d2
      && bool_decide (h2 = "-"%char) && is_upper y1 && is_upper y2
  | _, _ => false
  end.

(** The text of a plate: prefix, two digits, two letters. *)
Definition plate_text (prefix : string) (d1 d2 y1 y2 : ascii) : string :=
  prefix +:+ "-" +:+ String d1 (String d2 EmptyString)
         +:+ "-" +:+ String y1 (String y2 EmptyString).

(** ** The tax rates as the specification states them

    ELECTRIC = 2%, PETROL = 5% of the catalogue price: the number of
    hundredths per fuel type, to compare with the dictionary [taxes]. *)
Definition spec_rate_percent (fuel : FuelType) : Z :=
  match fuel with
  | ELECTRIC => 2
  | PETROL => 5
  end.

(** ** The demonstration of [main] *)

(** The four models that [main] adds to a new registry. *)
Definition main_calls (cls : VehicleModelInfo.defaults) : list call :=
  [ AddVehicleModelInfo (VehicleModelInfo.init cls "Tesla" "Model 3" 50000 None None);
    AddVehicleModelInfo (VehicleModelInfo.init cls "Volkswagen" "ID3" 35000 None None);
    AddVehicleModelInfo (VehicleModelInfo.init cls "BMW" "520e" 60000 (Some PETROL) None);
    AddVehicleModelInfo (VehicleModelInfo.init cls "Tesla" "Model Y" 55000 None None) ].

Definition main_world (cls : VehicleModelInfo.defaults) (g : random.state)
    : VehicleRegistry.world :=
  run (main_calls cls) (VehicleRegistry.World VehicleRegistry.init g).

(** A class defined in 2024 and one generator, to run the demonstration. *)
Definition sample_class : VehicleModelInfo.defaults :=
  VehicleModelInfo.class_body {| year := 2024 |}.

Definition sample_generator : random.state := fun i => (7 * i + 3)%nat.

Definition sample_world : VehicleRegistry.world :=
  main_world sample_class sample_generator.

(** ** Text of the objects, and [main] *)

Section Printing.
(** The text of a float ([str] of a [float]) is a built-in of Python: it
    is a parameter here. *)
Variable float_str : Float.t -> string.

(** [str] of a member of the enumeration. *)
Definition RegistryStatus_str (s : RegistryStatus) : string :=
  match s with
  | ONLINE => "RegistryStatus.ONLINE"
  | CONNECTION_ERROR => "RegistryStatus.CONNECTION_ERROR"
  | OFFLINE => "RegistryStatus.OFFLINE"
  end.

(** [VehicleModelInfo.__str__]: evaluating the [tax] property may raise. *)
Definition VehicleModelInfo_str (self : VehicleModelInfo.t) : outcome string :=
  match VehicleModelInfo.tax self with
  | Raise e => Raise e
  | Return tax =>
      Return ("brand: " +:+ VehicleModelInfo.brand self
              +:+ " - type: " +:+ VehicleModelInfo.model self
              +:+ " - tax: " +:+ float_str tax)
  end.

(** [Vehicle.__str__]. *)
Definition Vehicle_str (self : Vehicle.t) : outcome string :=
  match VehicleModelInfo_str (Vehicle.info self) with
  | Raise e => Raise e
  | Return info =>
      Return ("Id: " +:+ Vehicle.vehicle_id self
              +:+ ". License plate: " +:+ Vehicle.license_plate self
              +:+ ". Info: " +:+ info +:+ ".")
  end.

(** The state [main] runs in: the lines printed so far, and the registry
    it creates, with the generator. *)
Record console : Type := Console {
  stdout : list string;
  registry : VehicleRegistry.world
}.

Definition print (line : string) : M console unit :=
  fun c => (Return tt, Console (stdout c ++ [line]) (registry c)).

(** A method call on the registry of [main]. *)
Definition on_registry {A} (c : M VehicleRegistry.world A) : M console A :=
  fun p =>
    let '(o, w) := c (registry p) in
    (o, Console (stdout p) w).

(** [registry = VehicleRegistry()]. *)
Definition new_registry : M console unit :=
  fun p =>
    (Return tt,
     Console (stdout p)
       (VehicleRegistry.World VehicleRegistry.init (VehicleRegistry.rng (registry p)))).

Definition main (cls : VehicleModelInfo.defaults) : M console unit :=
  _ <- new_registry ;;
  _ <- on_registry (VehicleRegistry.add_vehicle_model_info
                      (VehicleModelInfo.init cls "Tesla" "Model 3" 50000 None None)) ;;
  _ <- on_registry (VehicleRegistry.add_vehicle_model_info
                      (VehicleModelInfo.init cls "Volkswagen" "ID3" 35000 None None)) ;;
  _ <- on_registry (VehicleRegistry.add_vehicle_model_info
                      (VehicleModelInfo.init cls "BMW" "520e" 60000 (Some PETROL) None)) ;;
  _ <- on_registry (VehicleRegistry.add_vehicle_model_info
                      (VehicleModelInfo.init cls "Tesla" "Model Y" 55000 None None)) ;;
  status <- on_registry VehicleRegistry.online_status ;;
  _ <- print ("Registry status: " +:+ RegistryStatus_str status) ;;
  vehicle <- on_registry (VehicleRegistry.register_vehicle "Volkswagen" "ID3") ;;
  text <- lift (Vehicle_str vehicle) ;;
  print text.
End Printing.

(** ** Histories: what was added, and the characters drawn *)

Definition is_add (c : call) : bool :=
  match c with
  | AddVehicleModelInfo _ => true
  | _ => false
  end.

(** The keys written by the calls of a history. *)
Definition added_keys (history : list call) : list (string * string) :=
  flat_map (fun c => match c with
                     | AddVehicleModelInfo i => [key_of i]
                     | _ => []
                     end) history.


(** The character that a draw [r] selects in a population. *)
Definition drawn (population : string) (r : nat) : ascii :=
  nth (r mod length (String.list_ascii_of_string population))
      (String.list_ascii_of_string population) Ascii.zero.

(** ** The number a float denotes, to state what the operations compute *)







(** * Verification *)

Import VehicleRegistry.

(** ** Equations of the methods that do not use the generator *)

Lemma find_model_info_eq (b m : string) (w : world) :
  find_model_info b m w = (Return (vehicle_models (self w) !! (b, m)), w).
Proof. reflexivity. Qed.

Lemma add_vehicle_model_info_eq (i : VehicleModelInfo.t) (w : world) :
  add_vehicle_model_info i w =
  (Return tt,
   World (make (<[key_of i := i]> (vehicle_models (self w))) (online (self w)))
         (rng w)).
Proof. reflexivity. Qed.

Lemma online_status_eq (w : world) :
  online_status w =
  (Return (if negb (online (self w)) then OFFLINE
           else if (size (vehicle_models (self w)) =? 0)%nat
                then CONNECTION_ERROR else ONLINE), w).
Proof.
  unfold online_status, bind, get_self.
  destruct (negb (online (self w))); [reflexivity|].
  destruct (size (vehicle_models (self w)) =? 0)%nat; reflexivity.
Qed.

Lemma static_self {A} (c : M random.state A) (w : world) :
  self (snd (static c w)) = self w.
Proof. unfold static. destruct (c (rng w)); reflexivity. Qed.

(** ** Random choices *)

Section Choices.
Context {A : Type}.
Variable population : list A.
Hypothesis inhabited_population : population <> [].

Lemma choice_ok (g : random.state) :
  exists x, random.choice population g = (Return x, fun i => g (S i))
            /\ x ∈ population.
Proof using inhabited_population.
  unfold random.choice, bind, random.next, lift, random.getitem.
  assert (Hlt : (g 0 mod length population < length population)%nat).
  { apply Nat.mod_upper_bound. destruct population; [congruence | simpl; lia]. }
  destruct (lookup_lt_is_Some_2 _ _ Hlt) as [x Hx].
  exists x. rewrite Hx. split; [reflexivity|].
  eapply list_elem_of_lookup_2; eassumption.
Qed.

Lemma choices_ok (k : nat) (g : random.state) :
  exists l, random.draws population k g = (Return l, fun i => g (k + i)%nat)
            /\ length l = k /\ Forall (fun x => x ∈ population) l.
Proof using inhabited_population.
  revert g. induction k as [|k IH]; intros g.
  - exists []. repeat split; constructor.
  - destruct (choice_ok g) as (x & Hx & Hin).
    destruct (IH (fun i => g (S i))) as (l & Hl & Hlen & Hall).
    exists (x :: l). simpl. unfold bind. rewrite Hx, Hl.
    repeat split; [simpl; congruence | constructor; assumption].
Qed.
End Choices.

(** ** Strings built from one-character choices *)

Lemma join_chars (cs : list ascii) :
  Str.join "" (map Str.char cs) = String.string_of_list_ascii cs.
Proof.
  induction cs as [|c cs IH]; [reflexivity|].
  simpl. destruct cs as [|c' cs]; [reflexivity|].
  change (map Str.char (c' :: cs)) with (Str.char c' :: map Str.char cs) at 1.
  cbv beta iota. rewrite <- IH. reflexivity.
Qed.

Lemma chosen_chars (s : string) (l : list string) :
  Forall (fun x => x ∈ Str.chars s) l ->
  exists cs, l = map Str.char cs
             /\ Forall (fun c => c ∈ String.list_ascii_of_string s) cs.
Proof.
  induction 1 as [|x l Hx _ (cs & -> & Hcs)].
  - exists []. split; [reflexivity | constructor].
  - unfold Str.chars in Hx. apply list_elem_of_fmap in Hx as (c & -> & Hc).
    exists (c :: cs). split; [reflexivity | constructor; assumption].
Qed.

Lemma all_chars_of_list (p : ascii -> bool) (cs : list ascii) :
  Forall (fun c => p c = true) cs ->
  all_chars p (String.string_of_list_ascii cs) = true.
Proof.
  intros H. unfold all_chars.
  rewrite String.list_ascii_of_string_of_list_ascii.
  apply forallb_forall. intros c Hc.
  rewrite Forall_forall in H. apply H. apply list_elem_of_In. exact Hc.
Qed.

Lemma length_of_list (cs : list ascii) :
  String.length (String.string_of_list_ascii cs) = length cs.
Proof. induction cs; simpl; congruence. Qed.

Lemma uppercase_population :
  Forall (fun c => is_upper c = true) (String.list_ascii_of_string Str.ascii_uppercase).
Proof. repeat constructor. Qed.

Lemma digits_population :
  Forall (fun c => is_digit c = true) (String.list_ascii_of_string Str.digits).
Proof. repeat constructor. Qed.

Lemma chars_nonempty (s : string) : s <> EmptyString -> Str.chars s <> [].
Proof. destruct s; [congruence | discriminate]. Qed.

Lemma choices_in_range {A} (population : list A) (k : Z) (g : random.state) :
  (- 2 ^ 63 <= k < 2 ^ 63)%Z ->
  random.choices population k g = random.draws population (Z.to_nat k) g.
Proof.
  intros Hk. unfold random.choices, random.repeat_count, bind, lift.
  destruct (Z.ltb_spec k (- 2 ^ 63)); [lia|].
  destruct (Z.leb_spec (2 ^ 63) k); [lia|]. reflexivity.
Qed.


Lemma choices_two {A} (population : list A) (g : random.state) :
  random.choices population 2 g = random.draws population 2 g.
Proof. reflexivity. Qed.

(** Choosing [k] characters of [s] and joining them. *)
Lemma choices_joined (p : ascii -> bool) (s : string) (k : nat) (g : random.state) :
  s <> EmptyString ->
  Forall (fun c => p c = true) (String.list_ascii_of_string s) ->
  exists cs,
    random.draws (Str.chars s) k g
      = (Return (map Str.char cs), fun i => g (k + i)%nat)
    /\ length cs = k /\ Forall (fun c => p c = true) cs.
Proof.
  intros Hs Hp.
  destruct (choices_ok (Str.chars s) (chars_nonempty s Hs) k g) as (l & Hl & Hlen & Hall).
  destruct (chosen_chars s l Hall) as (cs & -> & Hcs).
  exists cs. split; [exact Hl|]. split.
  - rewrite length_map in Hlen. exact Hlen.
  - rewrite Forall_forall in *. intros c Hc. apply Hp, Hcs, Hc.
Qed.

(** ** Identifier and licence plate generation *)

Lemma generate_vehicle_id_ok (n : Z) (g : random.state) :
  (- 2 ^ 63 <= n < 2 ^ 63)%Z ->
  exists cs,
    generate_vehicle_id n g
      = (Return (String.string_of_list_ascii cs), fun i => g (Z.to_nat n + i)%nat)
    /\ length cs = Z.to_nat n /\ Forall (fun c => is_upper c = true) cs.
Proof.
  intros Hn.
  destruct (choices_joined is_upper Str.ascii_uppercase (Z.to_nat n) g)
    as (cs & Hcs & Hlen & Hup); [discriminate | exact uppercase_population |].
  exists cs. unfold generate_vehicle_id, bind.
  rewrite choices_in_range by exact Hn. rewrite Hcs, join_chars.
  repeat split; assumption.
Qed.

Lemma generate_vehicle_license_ok (_id : string) (g : random.state) :
  exists d1 d2 y1 y2,
    generate_vehicle_license _id g
      = (Return (plate_text (Str.slice_to 2 _id) d1 d2 y1 y2),
         fun i => g (4 + i)%nat)
    /\ is_digit d1 = true /\ is_digit d2 = true
    /\ is_upper y1 = true /\ is_upper y2 = true.
Proof.
  destruct (choices_joined is_digit Str.digits 2 g)
    as (ds & Hds & Hdlen & Hd); [discriminate | exact digits_population |].
  destruct (choices_joined is_upper Str.ascii_uppercase 2 (fun i => g (2 + i)%nat))
    as (ys & Hys & Hylen & Hy); [discriminate | exact uppercase_population |].
  destruct ds as [|d1 [|d2 [|? ?]]]; try discriminate Hdlen.
  destruct ys as [|y1 [|y2 [|? ?]]]; try discriminate Hylen.
  exists d1, d2, y1, y2.
  unfold generate_vehicle_license, bind. rewrite choices_two, Hds, choices_two, Hys.
  inversion Hd as [|? ? Hd1 Hd']; inversion Hd' as [|? ? Hd2 _]; subst.
  inversion Hy as [|? ? Hy1 Hy']; inversion Hy' as [|? ? Hy2 _]; subst.
  repeat split; assumption.
Qed.

Lemma plate_text_format (x1 x2 : ascii) (rest : string) (d1 d2 y1 y2 : ascii) :
  is_digit d1 = true -> is_digit d2 = true ->
  is_upper y1 = true -> is_upper y2 = true ->
  plate_format (String x1 (String x2 rest))
    (plate_text (Str.slice_to 2 (String x1 (String x2 rest))) d1 d2 y1 y2) = true.
Proof.
  intros Hd1 Hd2 Hy1 Hy2. unfold plate_format, plate_text.
  assert (Hrest : String.substring 0 0 rest = EmptyString)
    by (destruct rest; reflexivity).
  unfold Str.slice_to. cbn [String.substring]. rewrite Hrest. simpl.
  rewrite Hd1, Hd2, Hy1, Hy2, !bool_decide_eq_true_2 by reflexivity.
  reflexivity.
Qed.

(** ** Registration *)

(** What [register_vehicle] does for a pair that is in the mapping. *)
Lemma register_vehicle_found (b m : string) (i : VehicleModelInfo.t) (w : world) :
  vehicle_models (self w) !! (b, m) = Some i ->
  exists cs d1 d2 y1 y2,
    register_vehicle b m w
      = (Return (Vehicle.make (String.string_of_list_ascii cs)
                   (plate_text (Str.slice_to 2 (String.string_of_list_ascii cs))
                               d1 d2 y1 y2) i),
         World (self w) (fun k => rng w (16 + k)%nat))
    /\ length cs = 12%nat /\ Forall (fun c => is_upper c = true) cs
    /\ is_digit d1 = true /\ is_digit d2 = true
    /\ is_upper y1 = true /\ is_upper y2 = true.
Proof.
  intros Hfound.
  destruct (generate_vehicle_id_ok 12 (rng w)) as (cs & Hid & Hlen & Hup);
    [lia|].
  unfold register_vehicle, bind at 1. rewrite find_model_info_eq, Hfound.
  unfold bind, static. cbn [self rng]. rewrite Hid. cbn [self rng].
  match goal with
  | |- context [generate_vehicle_license ?s ?g] =>
      destruct (generate_vehicle_license_ok s g)
        as (d1 & d2 & y1 & y2 & Hpl & Hd1 & Hd2 & Hy1 & Hy2)
  end.
  exists cs, d1, d2, y1, y2. rewrite Hpl.
  repeat split; assumption.
Qed.

(** What it does for a pair that is not. *)
Lemma register_vehicle_not_found (b m : string) (w : world) :
  vehicle_models (self w) !! (b, m) = None ->
  register_vehicle b m w
    = (Raise (VehicleInfoMissing
                (VehicleInfoMissingError.make b m "Vehicle information is missing.")), w).
Proof.
  intros Hnone. unfold register_vehicle, bind. rewrite find_model_info_eq, Hnone.
  reflexivity.
Qed.

(** ** Conversion of integers to binary64 *)

Lemma digits2_pos_lower (m : positive) :
  (2 ^ (Z.pos (digits2_pos m) - 1) <= Z.pos m)%Z.
Proof.
  induction m as [p IH|p IH|]; cbn [digits2_pos]; [| |cbn; lia].
  - rewrite Pos2Z.inj_succ, (Pos2Z.inj_xI p).
    replace (Z.succ (Z.pos (digits2_pos p)) - 1)%Z
      with (Z.succ (Z.pos (digits2_pos p) - 1))%Z by lia.
    rewrite Z.pow_succ_r by lia. lia.
  - rewrite Pos2Z.inj_succ, (Pos2Z.inj_xO p).
    replace (Z.succ (Z.pos (digits2_pos p)) - 1)%Z
      with (Z.succ (Z.pos (digits2_pos p) - 1))%Z by lia.
    rewrite Z.pow_succ_r by lia. lia.
Qed.

Lemma iter_xO_value (m k : positive) :
  Z.pos (Pos.iter xO m k) = (Z.pos m * 2 ^ Z.pos k)%Z.
Proof.
  induction k as [|k IH] using Pos.peano_ind.
  - cbn [Pos.iter]. rewrite Pos2Z.inj_xO. change (2 ^ 1)%Z with 2%Z. lia.
  - rewrite Pos.iter_succ, Pos2Z.inj_xO, IH, Pos2Z.inj_succ, Z.pow_succ_r by lia. lia.
Qed.

Lemma iter_xO_digits (m k : positive) :
  digits2_pos (Pos.iter xO m k) = (digits2_pos m + k)%positive.
Proof.
  induction k as [|k IH] using Pos.peano_ind.
  - cbn [Pos.iter digits2_pos]. lia.
  - rewrite Pos.iter_succ. cbn [digits2_pos]. rewrite IH. lia.
Qed.

Lemma binary_round_aux_exact (s : bool) (m : positive) (e : Z) :
  Z.pos (digits2_pos m) = 53%Z -> (-1074 <= e <= 971)%Z ->
  binary_round_aux Float.prec Float.emax s (Z.pos m) e loc_Exact = S754_finite s m e.
Proof.
  intros Hd He.
  assert (Hshift : (fexp Float.prec Float.emax (Z.pos (digits2_pos m) + e) - e = 0)%Z).
  { unfold fexp, emin, Float.prec, Float.emax. lia. }
  unfold binary_round_aux, shr_fexp. cbn [shr_record_of_loc Zdigits2].
  rewrite Hshift. cbn [shr loc_of_shr_record shr_m round_nearest_even].
  cbn [shr_record_of_loc Zdigits2]. rewrite Hshift. cbn [shr shr_m].
  unfold Float.prec, Float.emax.
  destruct (Z.leb_spec e (1024 - 53)) as [_|Hgt]; [reflexivity | lia].
Qed.

Lemma binary_round_small (s : bool) (m : positive) :
  (Z.pos m < 2 ^ 53)%Z ->
  exists m' e,
    binary_round Float.prec Float.emax s m 0 = S754_finite s m' e
    /\ (-52 <= e <= 0)%Z /\ Z.pos m' = (Z.pos m * 2 ^ (- e))%Z.
Proof.
  intros Hm.
  pose proof (digits2_pos_lower m) as Hlow.
  assert (Hd : (Z.pos (digits2_pos m) <= 53)%Z).
  { destruct (Z.le_gt_cases (Z.pos (digits2_pos m)) 53) as [|Hgt]; [assumption|].
    assert (2 ^ 53 <= 2 ^ (Z.pos (digits2_pos m) - 1))%Z
      by (apply Z.pow_le_mono_r; lia).
    lia. }
  assert (Hf : fexp Float.prec Float.emax (Z.pos (digits2_pos m) + 0)
               = (Z.pos (digits2_pos m) - 53)%Z).
  { unfold fexp, emin, Float.prec, Float.emax. lia. }
  unfold binary_round. rewrite Hf. unfold shl_align.
  destruct (Z.pos (digits2_pos m) - 53 - 0)%Z as [|k|k] eqn:Hk; try lia.
  - exists m, 0%Z. rewrite binary_round_aux_exact by lia.
    split; [reflexivity|]. split; [lia|]. cbn. lia.
  - exists (Pos.iter xO m k), (Z.pos (digits2_pos m) - 53)%Z.
    rewrite binary_round_aux_exact.
    + split; [reflexivity|]. split; [lia|].
      rewrite iter_xO_value. f_equal. f_equal. lia.
    + rewrite iter_xO_digits, Pos2Z.inj_add. lia.
    + lia.
Qed.

(** Every integer below [2^53] in absolute value converts, and exactly. *)
Lemma of_int_exact (n : Z) :
  (Z.abs n < 2 ^ 53)%Z ->
  exists p, Float.of_int n = Return p /\ Float.is_int p n.
Proof.
  intros Hn. unfold Float.of_int, Float.nearest_int, binary_normalize.
  destruct n as [|m|m].
  - exists (S754_zero false). split; reflexivity.
  - destruct (binary_round_small false m) as (m' & e & -> & He & Hm'); [lia|].
    exists (S754_finite false m' e). split; [reflexivity|].
    cbn [Float.is_int cond_Zopp].
    destruct (Z.eq_dec e 0%Z) as [->|]; [left | right; split; [exact Hm' | lia]].
    cbn in Hm'. split; lia.
  - destruct (binary_round_small true m) as (m' & e & -> & He & Hm'); [lia|].
    exists (S754_finite true m' e). split; [reflexivity|].
    cbn [Float.is_int cond_Zopp].
    rewrite Pos2Z.opp_pos, <- (Pos2Z.opp_pos m), <- (Pos2Z.opp_pos m'), Hm'.
    destruct (Z.eq_dec e 0%Z) as [->|]; [left | right; split; [ring | lia]].
    split; [cbn; lia | lia].
Qed.

(** * The claims *)

(** C1. For every pair [(brand, model)] that is a key of the registry's
    mapping, and whatever the random generator draws, [register_vehicle]
    returns a vehicle whose [info] is the stored model information, whose
    [vehicle_id] consists of exactly 12 uppercase letters, and whose
    [license_plate] has the form XX-DD-YY: the first two characters of the
    identifier, two digits, two uppercase letters. *)
Theorem register_vehicle_registered
    (b m : string) (i : VehicleModelInfo.t) (w : world) :
  vehicle_models (self w) !! (b, m) = Some i ->
  exists v w',
    register_vehicle b m w = (Return v, w')
    /\ Vehicle.info v = i
    /\ String.length (Vehicle.vehicle_id v) = 12%nat
    /\ all_chars is_upper (Vehicle.vehicle_id v) = true
    /\ plate_format (Vehicle.vehicle_id v) (Vehicle.license_plate v) = true.
Proof.
  intros Hfound.
  destruct (register_vehicle_found b m i w Hfound)
    as (cs & d1 & d2 & y1 & y2 & Heq & Hlen & Hup & Hd1 & Hd2 & Hy1 & Hy2).
  eexists _, _. split; [exact Heq|]. cbn [Vehicle.info Vehicle.vehicle_id Vehicle.license_plate].
  split; [reflexivity|]. split; [rewrite length_of_list; exact Hlen|].
  split; [apply all_chars_of_list; exact Hup|].
  destruct cs as [|x1 [|x2 cs]]; try discriminate Hlen.
  apply plate_text_format; assumption.
Qed.

Lemma register_vehicle_registered_witness :
  exists v w',
    register_vehicle "Volkswagen" "ID3" sample_world = (Return v, w')
    /\ Vehicle.info v
       = VehicleModelInfo.make "Volkswagen" "ID3" 35000 ELECTRIC 2024
    /\ String.length (Vehicle.vehicle_id v) = 12%nat
    /\ all_chars is_upper (Vehicle.vehicle_id v) = true
    /\ plate_format (Vehicle.vehicle_id v) (Vehicle.license_plate v) = true.
Proof.
  apply (register_vehicle_registered "Volkswagen" "ID3" _ sample_world).
  vm_compute. reflexivity.
Defined.

(** C2. For every pair [(brand, model)] that is not a key of the mapping,
    [register_vehicle] raises [VehicleInfoMissingError]; the exception
    carries that brand and that model, and the message
    "Vehicle information is missing.". *)
Theorem register_vehicle_unregistered (b m : string) (w : world) :
  vehicle_models (self w) !! (b, m) = None ->
  exists e,
    fst (register_vehicle b m w) = Raise (VehicleInfoMissing e)
    /\ VehicleInfoMissingError.brand e = b
    /\ VehicleInfoMissingError.model e = m
    /\ VehicleInfoMissingError.message e = "Vehicle information is missing.".
Proof.
  intros Hnone. rewrite (register_vehicle_not_found b m w Hnone).
  eexists. split; [reflexivity|]. repeat split.
Qed.

Lemma register_vehicle_unregistered_witness :
  exists e,
    fst (register_vehicle "Ford" "Focus" sample_world) = Raise (VehicleInfoMissing e)
    /\ VehicleInfoMissingError.brand e = "Ford"
    /\ VehicleInfoMissingError.model e = "Focus"
    /\ VehicleInfoMissingError.message e = "Vehicle information is missing.".
Proof.
  apply (register_vehicle_unregistered "Ford" "Focus" sample_world).
  vm_compute. reflexivity.
Defined.

(** C3. [online_status] returns OFFLINE when the [online] flag is false,
    whatever the mapping holds; CONNECTION_ERROR when the flag is true and
    the mapping is empty; ONLINE when the flag is true and the mapping is
    not empty.  It raises nothing and leaves the state as it was. *)
Theorem online_status_spec (w : world) :
  snd (online_status w) = w
  /\ (online (self w) = false -> fst (online_status w) = Return OFFLINE)
  /\ (online (self w) = true -> vehicle_models (self w) = ∅ ->
      fst (online_status w) = Return CONNECTION_ERROR)
  /\ (online (self w) = true -> vehicle_models (self w) <> ∅ ->
      fst (online_status w) = Return ONLINE).
Proof.
  rewrite online_status_eq. cbn [fst snd]. split; [reflexivity|].
  split; [intros ->; reflexivity|].
  split; intros -> Hm; cbn [negb].
  - rewrite Hm, map_size_empty. reflexivity.
  - destruct (Nat.eqb_spec (size (vehicle_models (self w))) 0) as [Hz|]; [|reflexivity].
    apply map_size_empty_iff in Hz. contradiction.
Qed.

Lemma online_status_spec_witness :
  fst (online_status sample_world) = Return ONLINE
  /\ fst (online_status
            (World (make (vehicle_models (self sample_world)) false) sample_generator))
     = Return OFFLINE.
Proof.
  split.
  - apply (online_status_spec sample_world); [reflexivity|].
    intros H. apply (f_equal size) in H. vm_compute in H. discriminate H.
  - apply (online_status_spec
             (World (make (vehicle_models (self sample_world)) false) sample_generator)).
    reflexivity.
Defined.

(** ** Histories *)

Lemma register_vehicle_self (b m : string) (w : world) :
  self (snd (register_vehicle b m w)) = self w.
Proof.
  destruct (vehicle_models (self w) !! (b, m)) as [i|] eqn:Hlook.
  - destruct (register_vehicle_found b m i w Hlook) as (? & ? & ? & ? & ? & -> & _).
    reflexivity.
  - rewrite (register_vehicle_not_found b m w Hlook). reflexivity.
Qed.

Lemma perform_other_key (k : string * string) (c : call) (w : world) :
  ~ adds_key k c ->
  vehicle_models (self (perform c w)) !! k = vehicle_models (self w) !! k.
Proof.
  destruct c as [i|b m|b m|]; cbn [perform adds_key]; intros Hk.
  - rewrite add_vehicle_model_info_eq. cbn [snd self vehicle_models].
    apply lookup_insert_ne. exact Hk.
  - reflexivity.
  - rewrite register_vehicle_self. reflexivity.
  - rewrite online_status_eq. reflexivity.
Qed.

Lemma run_other_key (k : string * string) (cs : list call) (w : world) :
  Forall (fun c => ~ adds_key k c) cs ->
  vehicle_models (self (run cs w)) !! k = vehicle_models (self w) !! k.
Proof.
  intros Hcs. revert w. induction Hcs as [|c cs Hc _ IH]; intros w; [reflexivity|].
  cbn [run fold_left]. fold (run cs (perform c w)).
  rewrite IH. apply perform_other_key, Hc.
Qed.

Lemma run_app (cs1 cs2 : list call) (w : world) :
  run (cs1 ++ cs2) w = run cs2 (run cs1 w).
Proof. apply fold_left_app. Qed.

(** C4. In every history of calls on a registry, a model information that
    was inserted by [add_vehicle_model_info] and whose key was not written
    again afterwards is what [find_model_info] returns for its brand and
    model; and for a pair that no call of the history of a new registry
    inserted, [find_model_info] returns [None].  In both cases nothing is
    raised. *)
Theorem find_model_info_history :
  (forall (before after : list call) (i : VehicleModelInfo.t) (w : world),
      Forall (fun c => ~ adds_key (key_of i) c) after ->
      fst (find_model_info (VehicleModelInfo.brand i) (VehicleModelInfo.model i)
             (run (before ++ AddVehicleModelInfo i :: after) w))
      = Return (Some i))
  /\ (forall (history : list call) (b m : string) (g : random.state),
         Forall (fun c => ~ adds_key (b, m) c) history ->
         fst (find_model_info b m (run history (World init g))) = Return None).
Proof.
  split.
  - intros before after i w Hafter.
    rewrite find_model_info_eq. cbn [fst]. f_equal.
    rewrite run_app. cbn [run fold_left].
    fold (run after (perform (AddVehicleModelInfo i) (run before w))).
    change (VehicleModelInfo.brand i, VehicleModelInfo.model i) with (key_of i).
    rewrite (run_other_key _ _ _ Hafter). cbn [perform].
    rewrite add_vehicle_model_info_eq. cbn [snd self vehicle_models].
    apply lookup_insert_eq.
  - intros history b m g Hhist.
    rewrite find_model_info_eq. cbn [fst]. f_equal.
    rewrite (run_other_key _ _ _ Hhist). apply lookup_empty.
Qed.

Lemma find_model_info_history_witness :
  fst (find_model_info "Tesla" "Model 3" sample_world)
  = Return (Some (VehicleModelInfo.make "Tesla" "Model 3" 50000 ELECTRIC 2024))
  /\ fst (find_model_info "Ford" "Focus" sample_world) = Return None.
Proof.
  split.
  - apply (proj1 find_model_info_history []
             (tl (main_calls sample_class))
             (VehicleModelInfo.make "Tesla" "Model 3" 50000 ELECTRIC 2024)
             (World init sample_generator)).
    repeat constructor; cbn [adds_key key_of]; intros H; discriminate H.
  - apply (proj2 find_model_info_history (main_calls sample_class)
             "Ford" "Focus" sample_generator).
    repeat constructor; cbn [adds_key key_of]; intros H; discriminate H.
Defined.

(** C6. [add_vehicle_model_info] inserts or overwrites the entry of the
    mapping whose key is [(info.brand, info.model)] and changes nothing
    else: the entries under the other keys and the [online] flag are as
    before.  A key has one entry (the mapping grows by one entry when the
    key is new and keeps its size when the key was there), and of two
    insertions under one key the second is the one that stays. *)
Theorem add_vehicle_model_info_spec (i : VehicleModelInfo.t) (w : world) :
  let w' := snd (add_vehicle_model_info i w) in
  fst (add_vehicle_model_info i w) = Return tt
  /\ vehicle_models (self w') !! key_of i = Some i
  /\ (forall k, k <> key_of i ->
        vehicle_models (self w') !! k = vehicle_models (self w) !! k)
  /\ online (self w') = online (self w)
  /\ rng w' = rng w
  /\ size (vehicle_models (self w'))
     = match vehicle_models (self w) !! key_of i with
       | Some _ => size (vehicle_models (self w))
       | None => S (size (vehicle_models (self w)))
       end
  /\ (forall j, key_of j = key_of i ->
        let w'' := snd (add_vehicle_model_info j w') in
        vehicle_models (self w'') !! key_of i = Some j
        /\ size (vehicle_models (self w'')) = size (vehicle_models (self w'))).
Proof.
  rewrite add_vehicle_model_info_eq. cbn [fst snd self vehicle_models online rng].
  split; [reflexivity|]. split; [apply lookup_insert_eq|].
  split; [intros k Hk; apply lookup_insert_ne; congruence|].
  split; [reflexivity|]. split; [reflexivity|]. split.
  - destruct (vehicle_models (self w) !! key_of i) as [old|] eqn:Hold.
    + apply map_size_insert_Some. rewrite Hold. eauto.
    + apply map_size_insert_None. exact Hold.
  - intros j Hj. rewrite add_vehicle_model_info_eq. cbn [snd self vehicle_models].
    rewrite Hj. split; [apply lookup_insert_eq|].
    apply map_size_insert_Some. rewrite lookup_insert_eq. eauto.
Qed.

Lemma add_vehicle_model_info_spec_witness :
  vehicle_models
    (self (snd (add_vehicle_model_info
                  (VehicleModelInfo.make "Tesla" "Model 3" 45000 PETROL 2025)
                  sample_world))) !! ("BMW", "520e")
  = Some (VehicleModelInfo.make "BMW" "520e" 60000 PETROL 2024).
Proof.
  rewrite (proj1 (proj2 (proj2
    (add_vehicle_model_info_spec
       (VehicleModelInfo.make "Tesla" "Model 3" 45000 PETROL 2025) sample_world)))
    ("BMW", "520e")).
  - vm_compute. reflexivity.
  - cbn [key_of VehicleModelInfo.brand VehicleModelInfo.model]. intros H. discriminate H.
Defined.

(** ** Tax *)

Lemma taxes_rate (fuel : FuelType) :
  dict_getitem taxes fuel = Return (Float.hundredths (spec_rate_percent fuel)).
Proof. destruct fuel; vm_compute; reflexivity. Qed.

Lemma tax_eq (i : VehicleModelInfo.t) :
  VehicleModelInfo.tax i
  = match Float.of_int (VehicleModelInfo.catalogue_price i) with
    | Return price =>
        Return (Float.mul
                  (Float.hundredths (spec_rate_percent (VehicleModelInfo.fuel_type i)))
                  price)
    | Raise e => Raise e
    end.
Proof. unfold VehicleModelInfo.tax. rewrite taxes_rate. reflexivity. Qed.

(** C7. [register_vehicle] returns a vehicle only for a pair that is a key
    of the mapping when it is called, and the vehicle's [info] is the entry
    stored under that key; for a pair that is not a key it raises.  So a
    returned vehicle always references a model information of the mapping. *)
Theorem register_vehicle_only_known (b m : string) (w : world) :
  (forall v, fst (register_vehicle b m w) = Return v ->
             vehicle_models (self w) !! (b, m) = Some (Vehicle.info v))
  /\ (forall e, fst (register_vehicle b m w) = Raise e ->
                vehicle_models (self w) !! (b, m) = None)
  /\ (is_Some (vehicle_models (self w) !! (b, m)) ->
      exists v, fst (register_vehicle b m w) = Return v)
  /\ (vehicle_models (self w) !! (b, m) = None ->
      exists e, fst (register_vehicle b m w) = Raise e).
Proof.
  destruct (vehicle_models (self w) !! (b, m)) as [i|] eqn:Hlook.
  - destruct (register_vehicle_found b m i w Hlook) as (? & ? & ? & ? & ? & -> & _).
    cbn [fst]. split; [|split; [|split]].
    + intros v Hv. injection Hv as <-. reflexivity.
    + intros e He. discriminate He.
    + intros _. eexists. reflexivity.
    + intros Hnone. discriminate Hnone.
  - rewrite (register_vehicle_not_found b m w Hlook).
    cbn [fst]. split; [|split; [|split]].
    + intros v Hv. discriminate Hv.
    + reflexivity.
    + intros [? Hsome]. discriminate Hsome.
    + intros _. eexists. reflexivity.
Qed.

Lemma register_vehicle_only_known_witness :
  exists v, fst (register_vehicle "BMW" "520e" sample_world) = Return v.
Proof.
  apply (register_vehicle_only_known "BMW" "520e" sample_world).
  vm_compute. eauto.
Defined.

(** C8. [register_vehicle] leaves the registry as it was, when it returns
    and when it raises: the mapping and the [online] flag after the call
    are those before it.  When it raises, the generator has not been used
    either, so the whole state is unchanged. *)
Theorem register_vehicle_frame (b m : string) (w : world) :
  let w' := snd (register_vehicle b m w) in
  vehicle_models (self w') = vehicle_models (self w)
  /\ online (self w') = online (self w)
  /\ (forall e, fst (register_vehicle b m w) = Raise e -> w' = w).
Proof.
  cbv zeta. rewrite register_vehicle_self. split; [reflexivity|]. split; [reflexivity|].
  intros e He.
  destruct (vehicle_models (self w) !! (b, m)) as [i|] eqn:Hlook.
  - destruct (register_vehicle_found b m i w Hlook) as (? & ? & ? & ? & ? & Heq & _).
    rewrite Heq in He. discriminate He.
  - rewrite (register_vehicle_not_found b m w Hlook). reflexivity.
Qed.

Lemma register_vehicle_frame_witness :
  snd (register_vehicle "Ford" "Focus" sample_world) = sample_world.
Proof.
  eapply (register_vehicle_frame "Ford" "Focus" sample_world).
  vm_compute. reflexivity.
Defined.

(** C9. A new registry has its [online] flag set and an empty mapping, so
    [online_status] on it, before any insertion, returns CONNECTION_ERROR
    and not OFFLINE. *)
Theorem new_registry_status (g : random.state) :
  online init = true
  /\ vehicle_models init = ∅
  /\ online_status (World init g) = (Return CONNECTION_ERROR, World init g)
  /\ fst (online_status (World init g)) <> Return OFFLINE.
Proof.
  split; [reflexivity|]. split; [reflexivity|].
  rewrite online_status_eq. cbn [self init online negb vehicle_models].
  rewrite map_size_empty. split; [reflexivity | discriminate].
Qed.

(** C10. A [VehicleModelInfo] constructed from a brand, a model and a
    catalogue price only has fuel type ELECTRIC, so that its tax is at the
    rate of 2 hundredths, and has as production year the year read from the
    clock when the class was defined. *)
Theorem VehicleModelInfo_defaults (now : datetime) (b m : string) (price : Z) :
  let i := VehicleModelInfo.init (VehicleModelInfo.class_body now) b m price None None in
  VehicleModelInfo.brand i = b
  /\ VehicleModelInfo.model i = m
  /\ VehicleModelInfo.catalogue_price i = price
  /\ VehicleModelInfo.fuel_type i = ELECTRIC
  /\ VehicleModelInfo.production_year i = year now
  /\ VehicleModelInfo.tax i
     = match Float.of_int price with
       | Return p => Return (Float.mul (Float.hundredths 2) p)
       | Raise e => Raise e
       end.
Proof.
  cbv zeta. rewrite tax_eq. repeat split.
Qed.

(** * Further properties *)

(** ** What a history of calls leaves in the registry *)

Lemma perform_self (c : call) (w : world) :
  self (perform c w)
  = match c with
    | AddVehicleModelInfo i =>
        make (<[key_of i := i]> (vehicle_models (self w))) (online (self w))
    | _ => self w
    end.
Proof.
  destruct c as [i|b m|b m|]; cbn [perform].
  - rewrite add_vehicle_model_info_eq. reflexivity.
  - reflexivity.
  - apply register_vehicle_self.
  - rewrite online_status_eq. reflexivity.
Qed.

Lemma run_cons (c : call) (cs : list call) (w : world) :
  run (c :: cs) w = run cs (perform c w).
Proof. reflexivity. Qed.



Lemma run_online (cs : list call) (w : world) :
  online (self (run cs w)) = online (self w).
Proof.
  revert w. induction cs as [|c cs IH]; intros w; [reflexivity|].
  rewrite run_cons, IH, perform_self. destruct c; reflexivity.
Qed.

Lemma run_is_Some (cs : list call) (w : world) (k : string * string) :
  is_Some (vehicle_models (self (run cs w)) !! k)
  <-> is_Some (vehicle_models (self w) !! k) \/ k ∈ added_keys cs.
Proof.
  revert w. induction cs as [|c cs IH]; intros w.
  - cbn [run fold_left added_keys flat_map]. rewrite elem_of_nil. tauto.
  - rewrite run_cons, IH, perform_self.
    change (added_keys (c :: cs))
      with (match c with AddVehicleModelInfo i => [key_of i] | _ => [] end
            ++ added_keys cs).
    rewrite elem_of_app.
    destruct c as [i| | |]; rewrite ?elem_of_nil; try tauto.
    cbn [vehicle_models]. rewrite lookup_insert_is_Some, list_elem_of_singleton.
    destruct (decide (key_of i = k)) as [->|Hne]; [tauto|].
    split; [intros [[[]|[]]|]; auto; congruence | intros [|[|]]; auto].
Qed.

Lemma run_size (cs : list call) (w : world) :
  size (vehicle_models (self (run cs w)))
  <= size (vehicle_models (self w)) + length (added_keys cs).
Proof.
  revert w. induction cs as [|c cs IH]; intros w.
  - cbn [run fold_left added_keys flat_map length]. lia.
  - rewrite run_cons.
    change (added_keys (c :: cs))
      with (match c with AddVehicleModelInfo i => [key_of i] | _ => [] end
            ++ added_keys cs).
    rewrite length_app. etransitivity; [apply IH|]. rewrite perform_self.
    destruct c as [i| | |]; cbn [length vehicle_models]; try lia.
    rewrite map_size_insert.
    destruct (vehicle_models (self w) !! key_of i); unfold id; lia.
Qed.

Lemma no_add_no_key (cs : list call) :
  existsb is_add cs = false -> added_keys cs = [].
Proof.
  induction cs as [|c cs IH]; [reflexivity|].
  cbn [existsb]. intros Hc. apply orb_false_elim in Hc as [Hc Hcs].
  destruct c; try discriminate Hc; exact (IH Hcs).
Qed.



(** X2. No method changes the [online] flag: a registry built from a new
    one by calls of its methods is never reported OFFLINE; [online_status]
    returns ONLINE as soon as one call added a model, and CONNECTION_ERROR
    as long as none did. *)
Theorem online_status_after_history (history : list call) (g : random.state) :
  online (self (run history (World init g))) = true
  /\ fst (online_status (run history (World init g)))
     = Return (if existsb is_add history then ONLINE else CONNECTION_ERROR).
Proof.
  assert (Hon : online (self (run history (World init g))) = true)
    by (rewrite run_online; reflexivity).
  split; [exact Hon|].
  rewrite online_status_eq, Hon. cbn [fst negb]. f_equal.
  destruct (existsb is_add history) eqn:Hadd.
  - apply existsb_exists in Hadd as (c & Hc & Hisadd).
    destruct c as [i| | |]; try discriminate Hisadd.
    assert (Hsome : is_Some (vehicle_models (self (run history (World init g)))
                               !! key_of i)).
    { apply run_is_Some. right. unfold added_keys. apply list_elem_of_In.
      apply in_flat_map. exists (AddVehicleModelInfo i). split; [exact Hc|].
      left. reflexivity. }
    destruct (Nat.eqb_spec (size (vehicle_models (self (run history (World init g))))) 0)
      as [Hz|]; [|reflexivity].
    apply map_size_empty_iff in Hz. rewrite Hz, lookup_empty in Hsome.
    destruct Hsome as [? Hsome]. discriminate Hsome.
  - assert (Hempty : vehicle_models (self (run history (World init g))) = ∅).
    { apply map_empty. intros k. apply eq_None_not_Some. rewrite run_is_Some.
      rewrite (no_add_no_key history Hadd), elem_of_nil.
      cbn [self init vehicle_models]. rewrite lookup_empty.
      intros [[? Habs]|[]]. discriminate Habs. }
    rewrite Hempty, map_size_empty. reflexivity.
Qed.

(** X3. The keys of the mapping of a registry built from a new one are
    exactly the keys that the calls of [add_vehicle_model_info] wrote: no
    method removes an entry, none adds one under another key, and the
    mapping has at most as many entries as there were insertions. *)
Theorem keys_after_history :
  (forall (history : list call) (g : random.state) (k : string * string),
      is_Some (vehicle_models (self (run history (World init g))) !! k)
      <-> k ∈ added_keys history)
  /\ (forall (c : call) (w : world) (k : string * string),
         is_Some (vehicle_models (self w) !! k) ->
         is_Some (vehicle_models (self (perform c w)) !! k))
  /\ (forall (history : list call) (g : random.state),
         size (vehicle_models (self (run history (World init g))))
         <= length (added_keys history)).
Proof.
  split; [|split].
  - intros history g k. rewrite run_is_Some.
    cbn [self init vehicle_models]. rewrite lookup_empty.
    split; [intros [[? Habs]|Hk]; [discriminate Habs | exact Hk] | auto].
  - intros c w k Hk.
    change (perform c w) with (run [c] w). apply run_is_Some. left. exact Hk.
  - intros history g. etransitivity; [apply run_size|].
    cbn [self init vehicle_models]. rewrite map_size_empty. lia.
Qed.

Lemma keys_after_history_witness :
  is_Some (vehicle_models (self sample_world) !! ("Tesla", "Model Y")).
Proof.
  apply (proj1 keys_after_history (main_calls sample_class) sample_generator).
  vm_compute. repeat constructor.
Defined.

(** X4. Inserting the same model information twice leaves the state left
    by the first insertion, and two insertions under different keys give
    the same state in either order. *)
Theorem add_vehicle_model_info_twice (i j : VehicleModelInfo.t) (w : world) :
  snd (add_vehicle_model_info i (snd (add_vehicle_model_info i w)))
  = snd (add_vehicle_model_info i w)
  /\ (key_of i <> key_of j ->
      snd (add_vehicle_model_info j (snd (add_vehicle_model_info i w)))
      = snd (add_vehicle_model_info i (snd (add_vehicle_model_info j w)))).
Proof.
  rewrite !add_vehicle_model_info_eq. cbn [snd self vehicle_models online rng].
  split.
  - rewrite insert_insert_eq. reflexivity.
  - intros Hne.
    rewrite (insert_insert_ne _ (key_of i) (key_of j)) by exact Hne. reflexivity.
Qed.

Lemma add_vehicle_model_info_twice_witness :
  snd (add_vehicle_model_info
         (VehicleModelInfo.make "Ford" "Focus" 20000 PETROL 2020)
         (snd (add_vehicle_model_info
                 (VehicleModelInfo.make "Fiat" "500" 15000 ELECTRIC 2021)
                 sample_world)))
  = snd (add_vehicle_model_info
           (VehicleModelInfo.make "Fiat" "500" 15000 ELECTRIC 2021)
           (snd (add_vehicle_model_info
                   (VehicleModelInfo.make "Ford" "Focus" 20000 PETROL 2020)
                   sample_world))).
Proof.
  apply (add_vehicle_model_info_twice
           (VehicleModelInfo.make "Fiat" "500" 15000 ELECTRIC 2021)
           (VehicleModelInfo.make "Ford" "Focus" 20000 PETROL 2020) sample_world).
  cbn [key_of VehicleModelInfo.brand VehicleModelInfo.model].
  intros H. discriminate H.
Defined.

(** ** The characters that the draws select *)

Lemma choice_drawn (s : string) (g : random.state) :
  s <> EmptyString ->
  random.choice (Str.chars s) g
  = (Return (Str.char (drawn s (g 0%nat))), fun i => g (S i)).
Proof.
  intros Hs. unfold random.choice, bind, random.next, lift, random.getitem, Str.chars, drawn.
  rewrite length_map, list_lookup_fmap.
  assert (Hlt : (g 0 mod length (String.list_ascii_of_string s)
                 < length (String.list_ascii_of_string s))%nat).
  { apply Nat.mod_upper_bound. destruct s; [congruence | cbn; lia]. }
  destruct (lookup_lt_is_Some_2 _ _ Hlt) as [c Hc].
  rewrite nth_lookup, Hc. reflexivity.
Qed.

Lemma choices_drawn (s : string) (k : nat) (g : random.state) :
  s <> EmptyString ->
  random.draws (Str.chars s) k g
  = (Return (map Str.char (map (fun j => drawn s (g j)) (seq 0 k))),
     fun i => g (k + i)%nat).
Proof.
  intros Hs. revert g. induction k as [|k IH]; intros g; [reflexivity|].
  cbn [random.draws]. unfold bind at 1. rewrite (choice_drawn s g Hs).
  unfold bind at 1. rewrite IH. cbn [seq map]. unfold ret.
  rewrite <- seq_shift, (map_map S (fun j => drawn s (g j))). reflexivity.
Qed.

Lemma generate_vehicle_id_drawn (n : Z) (g : random.state) :
  (- 2 ^ 63 <= n < 2 ^ 63)%Z ->
  generate_vehicle_id n g
  = (Return (String.string_of_list_ascii
               (map (fun j => drawn Str.ascii_uppercase (g j)) (seq 0 (Z.to_nat n)))),
     fun i => g (Z.to_nat n + i)%nat).
Proof.
  intros Hn. unfold generate_vehicle_id, bind.
  rewrite choices_in_range by exact Hn.
  rewrite choices_drawn by discriminate. rewrite join_chars. reflexivity.
Qed.

Lemma generate_vehicle_license_drawn (_id : string) (g : random.state) :
  generate_vehicle_license _id g
  = (Return (plate_text (Str.slice_to 2 _id)
               (drawn Str.digits (g 0%nat)) (drawn Str.digits (g 1%nat))
               (drawn Str.ascii_uppercase (g 2%nat))
               (drawn Str.ascii_uppercase (g 3%nat))),
     fun i => g (4 + i)%nat).
Proof.
  unfold generate_vehicle_license, bind at 1.
  rewrite choices_two, choices_drawn by discriminate.
  unfold bind. rewrite choices_two, choices_drawn by discriminate. reflexivity.
Qed.

(** The vehicle issued for a pair that is in the mapping, from the draws. *)
Lemma register_vehicle_drawn (b m : string) (i : VehicleModelInfo.t) (w : world) :
  vehicle_models (self w) !! (b, m) = Some i ->
  register_vehicle b m w
  = (Return
       (Vehicle.make
          (String.string_of_list_ascii
             (map (fun j => drawn Str.ascii_uppercase (rng w j)) (seq 0 12)))
          (plate_text
             (Str.slice_to 2
                (String.string_of_list_ascii
                   (map (fun j => drawn Str.ascii_uppercase (rng w j)) (seq 0 12))))
             (drawn Str.digits (rng w 12%nat)) (drawn Str.digits (rng w 13%nat))
             (drawn Str.ascii_uppercase (rng w 14%nat))
             (drawn Str.ascii_uppercase (rng w 15%nat)))
          i),
     World (self w) (fun k => rng w (16 + k)%nat)).
Proof.
  intros Hfound. unfold register_vehicle, bind at 1.
  rewrite find_model_info_eq, Hfound.
  unfold bind, static. cbn [self rng].
  rewrite generate_vehicle_id_drawn by lia. cbn [self rng].
  rewrite generate_vehicle_license_drawn. reflexivity.
Qed.

Lemma length_slice_to (n : nat) (s : string) :
  String.length (Str.slice_to n s) = Nat.min n (String.length s).
Proof.
  unfold Str.slice_to. revert s. induction n as [|n IH]; intros [|c s]; cbn; auto.
Qed.

Lemma length_append (s1 s2 : string) :
  String.length (s1 +:+ s2) = (String.length s1 + String.length s2)%nat.
Proof.
  induction s1 as [|c s1 IH]; [reflexivity|].
  change (String.length (String c s1 +:+ s2)) with (S (String.length (s1 +:+ s2))).
  rewrite IH. reflexivity.
Qed.

Lemma length_plate_text (prefix : string) (d1 d2 y1 y2 : ascii) :
  String.length (plate_text prefix d1 d2 y1 y2) = (String.length prefix + 6)%nat.
Proof. unfold plate_text. rewrite length_append. reflexivity. Qed.




Lemma all_chars_append (p : ascii -> bool) (s1 s2 : string) :
  all_chars p (s1 +:+ s2) = all_chars p s1 && all_chars p s2.
Proof.
  unfold all_chars. induction s1 as [|c s1 IH]; [reflexivity|].
  change (String.list_ascii_of_string (String c s1 +:+ s2))
    with (c :: String.list_ascii_of_string (s1 +:+ s2)).
  change (String.list_ascii_of_string (String c s1))
    with (c :: String.list_ascii_of_string s1).
  cbn [forallb]. rewrite IH, andb_assoc. reflexivity.
Qed.

Lemma all_chars_slice_to (p : ascii -> bool) (n : nat) (s : string) :
  all_chars p s = true -> all_chars p (Str.slice_to n s) = true.
Proof.
  unfold all_chars, Str.slice_to. revert s.
  induction n as [|n IH]; intros [|c s] Hs; try reflexivity.
  cbn [String.substring String.list_ascii_of_string forallb] in *.
  apply andb_prop in Hs as [-> Hs]. exact (IH s Hs).
Qed.

Lemma all_chars_plate_text (p : ascii -> bool) (prefix : string) (d1 d2 y1 y2 : ascii) :
  all_chars p prefix = true -> p "-"%char = true ->
  p d1 = true -> p d2 = true -> p y1 = true -> p y2 = true ->
  all_chars p (plate_text prefix d1 d2 y1 y2) = true.
Proof.
  intros Hp Hh Hd1 Hd2 Hy1 Hy2. unfold plate_text.
  rewrite all_chars_append, Hp.
  change ("-" +:+ String d1 (String d2 "") +:+ "-" +:+ String y1 (String y2 ""))
    with (String "-" (String d1 (String d2 (String "-" (String y1 (String y2 "")))))).
  unfold all_chars. cbn [String.list_ascii_of_string forallb].
  rewrite Hh, Hd1, Hd2, Hy1, Hy2. reflexivity.
Qed.

(** X6. [generate_vehicle_license(_id)] raises nothing, whatever the
    identifier of ASCII characters: the plate is the first two characters
    of [_id] (all of it when it is shorter), a hyphen, two digits, a hyphen
    and two uppercase letters, drawn from four draws.  It has the form
    XX-DD-YY exactly when [_id] has at least two characters; for a shorter
    [_id] it is a shorter string. *)
Theorem generate_vehicle_license_spec (_id : string) (g : random.state) :
  is_ascii_text _id = true ->
  exists plate d1 d2 y1 y2,
    generate_vehicle_license _id g = (Return plate, fun i => g (4 + i)%nat)
    /\ plate = plate_text (Str.slice_to 2 _id) d1 d2 y1 y2
    /\ is_digit d1 = true /\ is_digit d2 = true
    /\ is_upper y1 = true /\ is_upper y2 = true
    /\ is_ascii_text plate = true
    /\ String.length plate = (Nat.min 2 (String.length _id) + 6)%nat
    /\ (plate_format _id plate = true <-> (2 <= String.length _id)%nat).
Proof.
  intros Hascii.
  destruct (generate_vehicle_license_ok _id g)
    as (d1 & d2 & y1 & y2 & Heq & Hd1 & Hd2 & Hy1 & Hy2).
  exists (plate_text (Str.slice_to 2 _id) d1 d2 y1 y2), d1, d2, y1, y2.
  split; [exact Heq|]. split; [reflexivity|].
  do 4 (split; [assumption|]).
  assert (Hdigit : forall c, is_digit c = true -> (nat_of_ascii c <? 128)%nat = true).
  { intros c Hc. unfold is_digit in Hc. apply andb_prop in Hc as [_ Hc].
    apply Nat.leb_le in Hc. apply Nat.ltb_lt. lia. }
  assert (Hupper : forall c, is_upper c = true -> (nat_of_ascii c <? 128)%nat = true).
  { intros c Hc. unfold is_upper in Hc. apply andb_prop in Hc as [_ Hc].
    apply Nat.leb_le in Hc. apply Nat.ltb_lt. lia. }
  split.
  { apply all_chars_plate_text; auto.
    apply all_chars_slice_to. exact Hascii. }
  split; [rewrite length_plate_text, length_slice_to; reflexivity|].
  destruct _id as [|x1 [|x2 rest]].
  - split; [intros H; discriminate H | cbn; lia].
  - split; [intros H; discriminate H | cbn; lia].
  - split; [cbn; lia | intros _; apply plate_text_format; assumption].
Qed.

Lemma generate_vehicle_license_spec_witness :
  exists plate,
    fst (generate_vehicle_license "A" sample_generator) = Return plate
    /\ String.length plate = 7%nat.
Proof.
  destruct (generate_vehicle_license_spec "A" sample_generator)
    as (plate & d1 & d2 & y1 & y2 & Heq & _ & _ & _ & _ & _ & _ & Hlen & _);
    [reflexivity|].
  exists plate. rewrite Heq. split; [reflexivity | exact Hlen].
Defined.

(** X7. [register_vehicle] keeps no record of what it issued: two
    registrations that succeed, of any models in any registries, return the
    same identifier and the same licence plate whenever the generator makes
    the same sixteen draws for both. *)
Theorem register_vehicle_repeats
    (b1 m1 b2 m2 : string) (w1 w2 : world) (v1 v2 : Vehicle.t) :
  fst (register_vehicle b1 m1 w1) = Return v1 ->
  fst (register_vehicle b2 m2 w2) = Return v2 ->
  (forall j, (j < 16)%nat -> rng w1 j = rng w2 j) ->
  Vehicle.vehicle_id v1 = Vehicle.vehicle_id v2
  /\ Vehicle.license_plate v1 = Vehicle.license_plate v2.
Proof.
  intros H1 H2 Hdraws.
  destruct (vehicle_models (self w1) !! (b1, m1)) as [i1|] eqn:Hl1;
    [|rewrite (register_vehicle_not_found _ _ _ Hl1) in H1; discriminate H1].
  destruct (vehicle_models (self w2) !! (b2, m2)) as [i2|] eqn:Hl2;
    [|rewrite (register_vehicle_not_found _ _ _ Hl2) in H2; discriminate H2].
  rewrite (register_vehicle_drawn _ _ _ _ Hl1) in H1.
  rewrite (register_vehicle_drawn _ _ _ _ Hl2) in H2.
  injection H1 as <-. injection H2 as <-.
  cbn [Vehicle.vehicle_id Vehicle.license_plate].
  rewrite !Hdraws by lia. split; reflexivity.
Qed.

Lemma register_vehicle_repeats_witness :
  exists v1 v2,
    fst (register_vehicle "BMW" "520e" sample_world) = Return v1
    /\ fst (register_vehicle "Tesla" "Model Y"
              (World (self sample_world)
                     (fun j => if (j <? 16)%nat then (7 * j + 3)%nat else 0%nat)))
       = Return v2
    /\ Vehicle.vehicle_id v1 = Vehicle.vehicle_id v2
    /\ Vehicle.license_plate v1 = Vehicle.license_plate v2.
Proof.
  eexists _, _. split; [vm_compute; reflexivity|]. split; [vm_compute; reflexivity|].
  eapply (register_vehicle_repeats "BMW" "520e" "Tesla" "Model Y" sample_world
            (World (self sample_world)
                   (fun j => if (j <? 16)%nat then (7 * j + 3)%nat else 0%nat))).
  - vm_compute. reflexivity.
  - vm_compute. reflexivity.
  - intros j Hj. cbn [rng]. destruct (Nat.ltb_spec j 16) as [_|Hge]; [reflexivity|lia].
Defined.

(** X8. Only a registration that succeeds uses the random generator, and
    it uses exactly sixteen draws; every other call, and a registration
    that fails, leaves the generator as it was. *)
Theorem generator_use (c : call) (w : world) :
  rng (perform c w)
  = match c with
    | RegisterVehicle b m =>
        match vehicle_models (self w) !! (b, m) with
        | Some _ => fun k => rng w (16 + k)%nat
        | None => rng w
        end
    | _ => rng w
    end.
Proof.
  destruct c as [i|b m|b m|]; cbn [perform].
  - rewrite add_vehicle_model_info_eq. reflexivity.
  - reflexivity.
  - destruct (vehicle_models (self w) !! (b, m)) as [i|] eqn:Hlook.
    + rewrite (register_vehicle_drawn _ _ _ _ Hlook). reflexivity.
    + rewrite (register_vehicle_not_found _ _ _ Hlook). reflexivity.
  - rewrite online_status_eq. reflexivity.
Qed.

(** ** Rounding to binary64 *)

Section Rounding.
Local Open Scope Z_scope.

Lemma digits2_pos_upper (m : positive) :
  (Z.pos m < 2 ^ Z.pos (digits2_pos m))%Z.
Proof.
  induction m as [p IH|p IH|]; cbn [digits2_pos]; [| |cbn; lia].
  - rewrite Pos2Z.inj_succ, (Pos2Z.inj_xI p), Z.pow_succ_r by lia. lia.
  - rewrite Pos2Z.inj_succ, (Pos2Z.inj_xO p), Z.pow_succ_r by lia. lia.
Qed.

Lemma digits2_pos_unique (m : positive) (d : Z) :
  (2 ^ (d - 1) <= Z.pos m < 2 ^ d)%Z -> Z.pos (digits2_pos m) = d.
Proof.
  intros [Hlo Hhi].
  pose proof (digits2_pos_lower m) as Hl. pose proof (digits2_pos_upper m) as Hu.
  assert (Hd : (0 < d)%Z).
  { destruct (Z.lt_ge_cases 0 d) as [|Hle]; [assumption|].
    rewrite (Z.pow_neg_r 2 (d - 1)) in Hlo by lia.
    destruct (Z.eq_dec d 0) as [->|]; [cbn in Hhi; lia|].
    rewrite Z.pow_neg_r in Hhi by lia. lia. }
  destruct (Z.lt_trichotomy (Z.pos (digits2_pos m)) d) as [Hlt|[Heq|Hgt]];
    [|exact Heq|].
  - assert (2 ^ Z.pos (digits2_pos m) <= 2 ^ (d - 1))%Z
      by (apply Z.pow_le_mono_r; lia).
    lia.
  - assert (2 ^ d <= 2 ^ (Z.pos (digits2_pos m) - 1))%Z
      by (apply Z.pow_le_mono_r; lia).
    lia.
Qed.

Lemma iter_pos_nat {A} (f : A -> A) (p : positive) (x : A) :
  SpecFloat.iter_pos f p x = Nat.iter (Pos.to_nat p) f x.
Proof.
  revert x. induction p as [p IH|p IH|]; intros x; cbn [SpecFloat.iter_pos].
  - rewrite !IH, Pos2Nat.inj_xI.
    replace (S (2 * Pos.to_nat p))%nat
      with (Pos.to_nat p + (Pos.to_nat p + 1))%nat by lia.
    rewrite !Nat.iter_add. reflexivity.
  - rewrite !IH, Pos2Nat.inj_xO.
    replace (2 * Pos.to_nat p)%nat with (Pos.to_nat p + Pos.to_nat p)%nat by lia.
    rewrite Nat.iter_add. reflexivity.
  - reflexivity.
Qed.

Lemma shr_1_spec (mrs : shr_record) :
  (0 <= shr_m mrs)%Z ->
  shr_m (shr_1 mrs) = (shr_m mrs / 2)%Z /\ shr_r (shr_1 mrs) = Z.odd (shr_m mrs).
Proof.
  destruct mrs as [m r s]. cbn [shr_m]. intros Hm.
  destruct m as [|[p|p|]|p]; try lia; cbn [shr_1 shr_m shr_r Z.odd].
  - split; reflexivity.
  - split; [|reflexivity]. rewrite (Pos2Z.inj_xI p).
    apply (Z.div_unique _ 2 _ 1); lia.
  - split; [|reflexivity]. rewrite (Pos2Z.inj_xO p).
    apply (Z.div_unique _ 2 _ 0); lia.
  - split; reflexivity.
Qed.

(** Shifting right by [n] bits: the quotient, and the last bit shifted out. *)
Lemma iter_shr_1 (n : nat) (mrs : shr_record) :
  (0 <= shr_m mrs)%Z ->
  shr_m (Nat.iter n shr_1 mrs) = (shr_m mrs / 2 ^ Z.of_nat n)%Z
  /\ (forall k : nat, n = S k ->
        shr_r (Nat.iter n shr_1 mrs) = Z.odd (shr_m mrs / 2 ^ Z.of_nat k)).
Proof.
  intros Hm. induction n as [|n [IHm IHr]].
  - split; [cbn; rewrite Z.div_1_r; reflexivity | intros k Hk; discriminate Hk].
  - change (Nat.iter (S n) shr_1 mrs) with (shr_1 (Nat.iter n shr_1 mrs)).
    assert (Hpos : (0 <= shr_m (Nat.iter n shr_1 mrs))%Z).
    { rewrite IHm. apply Z.div_pos; [exact Hm | apply Z.pow_pos_nonneg; lia]. }
    destruct (shr_1_spec _ Hpos) as [H1 H2]. split.
    + rewrite H1, IHm, Z.div_div, Nat2Z.inj_succ, Z.pow_succ_r by lia.
      f_equal. lia.
    + intros k [= <-]. rewrite H2, IHm. reflexivity.
Qed.
Lemma shr_fexp_exact (m : positive) (e : Z) :
  Z.pos (digits2_pos m) = 53 -> -1074 <= e ->
  shr_fexp Float.prec Float.emax (Z.pos m) e loc_Exact
  = (Build_shr_record (Z.pos m) false false, e).
Proof.
  intros Hd He. unfold shr_fexp. cbn [shr_record_of_loc Zdigits2].
  replace (fexp Float.prec Float.emax (Z.pos (digits2_pos m) + e) - e) with 0
    by (unfold fexp, emin, Float.prec, Float.emax; lia).
  reflexivity.
Qed.

Lemma shr_fexp_shift (m : positive) (e n : Z) :
  Z.pos (digits2_pos m) = 53 + n -> 0 < n -> -1074 <= e + n ->
  exists mrs,
    shr_fexp Float.prec Float.emax (Z.pos m) e loc_Exact = (mrs, e + n)
    /\ shr_m mrs = Z.pos m / 2 ^ n
    /\ shr_r mrs = Z.odd (Z.pos m / 2 ^ (n - 1)).
Proof.
  intros Hd Hn He. unfold shr_fexp. cbn [shr_record_of_loc Zdigits2].
  replace (fexp Float.prec Float.emax (Z.pos (digits2_pos m) + e) - e) with n
    by (unfold fexp, emin, Float.prec, Float.emax; lia).
  destruct n as [|pn|pn]; try lia. cbn [shr].
  rewrite iter_pos_nat.
  destruct (iter_shr_1 (Pos.to_nat pn) (Build_shr_record (Z.pos m) false false))
    as [Hm Hr]; [cbn; lia|].
  eexists. split; [reflexivity|]. cbn [shr_m] in Hm, Hr. split.
  - rewrite Hm, positive_nat_Z. reflexivity.
  - destruct (Pos.to_nat pn) as [|k] eqn:Hk; [lia|].
    rewrite (Hr k eq_refl). do 3 f_equal. lia.
Qed.

(** Rounding a mantissa of more than 53 bits: [n] bits are shifted out,
    and the quotient is kept or incremented. *)
Lemma binary_round_aux_shift (s : bool) (m : positive) (e n : Z) :
  Z.pos (digits2_pos m) = 53 + n -> 0 < n -> -1074 <= e + n ->
  exists mx,
    (mx = Z.pos m / 2 ^ n \/ mx = Z.pos m / 2 ^ n + 1)
    /\ (Z.odd (Z.pos m / 2 ^ (n - 1)) = false -> mx = Z.pos m / 2 ^ n)
    /\ (Z.odd (Z.pos m / 2 ^ (n - 1)) = true -> Z.odd (Z.pos m / 2 ^ n) = true ->
        mx = Z.pos m / 2 ^ n + 1)
    /\ binary_round_aux Float.prec Float.emax s (Z.pos m) e loc_Exact
       = if mx <? 2 ^ 53
         then (if e + n <=? 971
               then S754_finite s (Z.to_pos mx) (e + n) else S754_infinity s)
         else (if e + n + 1 <=? 971
               then S754_finite s (Z.to_pos (2 ^ 52)) (e + n + 1)
               else S754_infinity s).
Proof.
  intros Hd Hn He.
  destruct (shr_fexp_shift m e n Hd Hn He) as (mrs & Hshr & Hm & Hr).
  assert (Hbounds : 2 ^ 52 <= Z.pos m / 2 ^ n < 2 ^ 53).
  { pose proof (digits2_pos_lower m) as Hlo. pose proof (digits2_pos_upper m) as Hhi.
    rewrite Hd in Hlo, Hhi.
    replace (53 + n - 1) with (52 + n) in Hlo by lia.
    rewrite Z.pow_add_r in Hlo, Hhi by lia.
    assert (0 < 2 ^ n) by (apply Z.pow_pos_nonneg; lia).
    split.
    - apply Z.div_le_lower_bound; lia.
    - apply Z.div_lt_upper_bound; lia. }
  set (q := Z.pos m / 2 ^ n) in *.
  set (mx := round_nearest_even (shr_m mrs) (loc_of_shr_record mrs)).
  assert (Hmx : (mx = q \/ mx = q + 1)
                /\ (shr_r mrs = false -> mx = q)
                /\ (shr_r mrs = true -> Z.odd q = true -> mx = q + 1)).
  { subst mx. destruct mrs as [m' r' s']. cbn [shr_m shr_r] in *. subst m'.
    destruct r', s'; cbn [loc_of_shr_record round_nearest_even].
    - repeat split; auto; discriminate.
    - rewrite <- Z.negb_odd. destruct (Z.odd q); cbn [negb];
        repeat split; auto; discriminate.
    - repeat split; auto; discriminate.
    - repeat split; auto; discriminate. }
  exists mx. rewrite <- Hr. destruct Hmx as (Hcases & Hdown & Hup).
  split; [exact Hcases|]. split; [exact Hdown|]. split; [exact Hup|].
  unfold binary_round_aux. rewrite Hshr. fold mx.
  destruct (Z.ltb_spec mx (2 ^ 53)) as [Hlt|Hge].
  - destruct mx as [|px|px] eqn:Hpx; try lia.
    rewrite shr_fexp_exact; [|apply digits2_pos_unique; lia | lia].
    cbn [shr_m Z.to_pos]. reflexivity.
  - assert (Heq : mx = 2 ^ 53) by lia. rewrite Heq.
    destruct (shr_fexp_shift (Z.to_pos (2 ^ 53)) (e + n) 1) as (mrs2 & Hshr2 & Hm2 & _);
      [reflexivity | lia | lia |].
    change (Z.pos (Z.to_pos (2 ^ 53))) with (2 ^ 53) in Hshr2, Hm2.
    rewrite Hshr2, Hm2. reflexivity.
Qed.
(** Conversion of an integer of more than 53 bits. *)
Lemma binary_round_large (s : bool) (m : positive) :
  54 <= Z.pos (digits2_pos m) ->
  binary_round Float.prec Float.emax s m 0
  = binary_round_aux Float.prec Float.emax s (Z.pos m) 0 loc_Exact.
Proof.
  intros Hd. unfold binary_round, shl_align.
  replace (fexp Float.prec Float.emax (Z.pos (digits2_pos m) + 0))
    with (Z.pos (digits2_pos m) - 53)
    by (unfold fexp, emin, Float.prec, Float.emax; lia).
  destruct (Z.pos (digits2_pos m) - 53 - 0) eqn:Hk; try lia; reflexivity.
Qed.

(** The least integer that does not convert: [2^1024 - 2^970], half-way
    between the largest float and [2^1024]. *)
Lemma binary_round_range (s : bool) (m : positive) :
  (Z.pos m < 2 ^ 1024 - 2 ^ 970 ->
   exists m' e', binary_round Float.prec Float.emax s m 0 = S754_finite s m' e')
  /\ (2 ^ 1024 - 2 ^ 970 <= Z.pos m ->
      binary_round Float.prec Float.emax s m 0 = S754_infinity s).
Proof.
  pose proof (digits2_pos_lower m) as Hlo. pose proof (digits2_pos_upper m) as Hhi.
  destruct (Z.le_gt_cases (Z.pos (digits2_pos m)) 53) as [Hsmall|Hbig].
  - assert (Hm : Z.pos m < 2 ^ 53).
    { eapply Z.lt_le_trans; [exact Hhi|]. apply Z.pow_le_mono_r; lia. }
    split.
    + intros _. destruct (binary_round_small s m Hm) as (m' & e' & -> & _).
      eauto.
    + intros HT. assert (2 ^ 53 < 2 ^ 1024 - 2 ^ 970) by reflexivity. lia.
  - rewrite binary_round_large by lia.
    set (n := Z.pos (digits2_pos m) - 53).
    destruct (binary_round_aux_shift s m 0 n) as (mx & Hcases & Hdown & Hup & ->);
      [lia | lia | lia |].
    replace (Z.pos (digits2_pos m)) with (53 + n) in Hlo, Hhi by lia.
    replace (53 + n - 1) with (52 + n) in Hlo by lia.
    assert (Hq : 2 ^ 52 <= Z.pos m / 2 ^ n < 2 ^ 53).
    { rewrite Z.pow_add_r in Hlo, Hhi by lia.
      assert (0 < 2 ^ n) by (apply Z.pow_pos_nonneg; lia).
      split; [apply Z.div_le_lower_bound | apply Z.div_lt_upper_bound]; lia. }
    rewrite !Z.add_0_l.
    destruct (Z.lt_trichotomy n 971) as [Hn|[Hn|Hn]].
    + (* at most 1023 bits *)
      assert (Hm : Z.pos m < 2 ^ 1023).
      { eapply Z.lt_le_trans; [exact Hhi|]. apply Z.pow_le_mono_r; lia. }
      assert (2 ^ 1023 < 2 ^ 1024 - 2 ^ 970) by reflexivity.
      split; [intros _ | lia].
      destruct (mx <? 2 ^ 53).
      * destruct (Z.leb_spec n 971); [eauto | lia].
      * destruct (Z.leb_spec (n + 1) 971); [eauto | lia].
    + (* 1024 bits *)
      subst n. rewrite Hn in *. clear Hn.
      assert (Hdiv : Z.pos m / 2 ^ 971 = Z.pos m / 2 ^ 970 / 2).
      { rewrite Z.div_div by lia. reflexivity. }
      change (971 - 1) with 970 in Hdown, Hup.
      pose proof (Z.div_mod (Z.pos m / 2 ^ 970) 2 ltac:(lia)) as Hq0.
      rewrite Zmod_odd in Hq0.
      assert (Hm970 : 2 ^ 970 * (Z.pos m / 2 ^ 970) <= Z.pos m
                      < 2 ^ 970 * (Z.pos m / 2 ^ 970) + 2 ^ 970).
      { pose proof (Z.div_mod (Z.pos m) (2 ^ 970) ltac:(lia)) as E.
        pose proof (Z.mod_pos_bound (Z.pos m) (2 ^ 970) ltac:(lia)). lia. }
      assert (HT : 2 ^ 1024 - 2 ^ 970 = 2 ^ 970 * (2 ^ 54 - 1)) by reflexivity.
      assert (H53 : 2 ^ 54 = 2 * 2 ^ 53) by reflexivity.
      split.
      * intros Hlt.
        assert (Hmx : mx < 2 ^ 53).
        { destruct (Z.odd (Z.pos m / 2 ^ 970)) eqn:Hodd.
          - assert (Z.pos m / 2 ^ 970 < 2 ^ 54 - 1) by nia.
            destruct Hcases; lia.
          - rewrite Hdown by reflexivity. lia. }
        destruct (Z.ltb_spec mx (2 ^ 53)); [|lia].
        cbn. eauto.
      * intros Hge.
        assert (Hq54 : Z.pos m / 2 ^ 970 = 2 ^ 54 - 1) by nia.
        assert (Hodd : Z.odd (Z.pos m / 2 ^ 970) = true)
          by (rewrite Hq54; reflexivity).
        rewrite Hodd in Hq0.
        assert (Hq53 : Z.pos m / 2 ^ 971 = 2 ^ 53 - 1) by lia.
        rewrite Hup; [|exact Hodd | rewrite Hq53; reflexivity].
        rewrite Hq53. reflexivity.
    + (* more than 1024 bits *)
      assert (Hm : 2 ^ 1024 <= Z.pos m).
      { eapply Z.le_trans; [|exact Hlo]. apply Z.pow_le_mono_r; lia. }
      split; [intros Hlt; assert (0 < 2 ^ 970) by reflexivity; lia | intros _].
      destruct (mx <? 2 ^ 53).
      * destruct (Z.leb_spec n 971); [lia | reflexivity].
      * destruct (Z.leb_spec (n + 1) 971); [lia | reflexivity].
Qed.
(** An integer of at most 53 bits converts to a normal float of the same
    value. *)
Lemma binary_round_normal (s : bool) (m : positive) :
  Z.pos m < 2 ^ 53 ->
  exists m' e,
    binary_round Float.prec Float.emax s m 0 = S754_finite s m' e
    /\ -52 <= e <= 0 /\ Z.pos m' = Z.pos m * 2 ^ (- e)
    /\ 2 ^ 52 <= Z.pos m' < 2 ^ 53.
Proof.
  intros Hm.
  pose proof (digits2_pos_lower m) as Hlow.
  assert (Hd : Z.pos (digits2_pos m) <= 53).
  { destruct (Z.le_gt_cases (Z.pos (digits2_pos m)) 53) as [|Hgt]; [assumption|].
    assert (2 ^ 53 <= 2 ^ (Z.pos (digits2_pos m) - 1))
      by (apply Z.pow_le_mono_r; lia).
    lia. }
  assert (Hnormal : forall p : positive,
             Z.pos (digits2_pos p) = 53 -> 2 ^ 52 <= Z.pos p < 2 ^ 53).
  { intros p Hp. pose proof (digits2_pos_lower p) as Hl.
    pose proof (digits2_pos_upper p) as Hu. rewrite Hp in Hl, Hu.
    change (53 - 1) with 52 in Hl. lia. }
  unfold binary_round, shl_align.
  replace (fexp Float.prec Float.emax (Z.pos (digits2_pos m) + 0))
    with (Z.pos (digits2_pos m) - 53)
    by (unfold fexp, emin, Float.prec, Float.emax; lia).
  destruct (Z.pos (digits2_pos m) - 53 - 0) as [|k|k] eqn:Hk; try lia.
  - exists m, 0. rewrite binary_round_aux_exact by lia.
    split; [reflexivity|]. split; [lia|]. split; [cbn; lia|].
    apply Hnormal. lia.
  - assert (Hdk : Z.pos (digits2_pos (Pos.iter xO m k)) = 53)
      by (rewrite iter_xO_digits, Pos2Z.inj_add; lia).
    exists (Pos.iter xO m k), (Z.pos (digits2_pos m) - 53).
    rewrite binary_round_aux_exact by lia.
    split; [reflexivity|]. split; [lia|]. split; [|apply Hnormal, Hdk].
    rewrite iter_xO_value. f_equal. f_equal. lia.
Qed.

(** The product of a rate and a price that is a multiple of the inverse of
    the rate is rounded down to the exact quotient. *)
Lemma mul_rate_exact (s : bool) (mr m2 : positive) (e2 c k a X : Z) :
  Z.pos mr * c = 2 ^ (52 + k) + a ->
  2 ^ 52 <= Z.pos mr < 2 ^ 53 ->
  2 <= k <= 10 -> 0 < c -> 0 <= a <= 2 ^ (k - 2) ->
  Z.pos m2 = c * X -> 2 ^ 52 <= Z.pos m2 < 2 ^ 53 -> -52 <= e2 <= 0 ->
  exists j,
    1 <= j <= k
    /\ Float.mul (S754_finite false mr (- (52 + k))) (S754_finite s m2 e2)
       = S754_finite s (Z.to_pos (X * 2 ^ j)) (e2 - j).
Proof.
  intros Hrate Hmr Hk Hc Ha Hm2 Hn2 He2.
  assert (HX : 0 < X) by nia.
  unfold Float.mul. cbn [SFmul xorb].
  set (P := (mr * m2)%positive).
  assert (Hpow : 2 ^ (52 + k) = 2 ^ 52 * 2 ^ k) by (apply Z.pow_add_r; lia).
  assert (Hk1 : 2 ^ k = 2 * 2 ^ (k - 1)).
  { replace k with (1 + (k - 1)) at 1 by lia. rewrite Z.pow_add_r by lia.
    reflexivity. }
  assert (Hk2 : 2 ^ (k - 1) = 2 * 2 ^ (k - 2)).
  { replace (k - 1) with (1 + (k - 2)) at 1 by lia. rewrite Z.pow_add_r by lia.
    reflexivity. }
  assert (Hpk : 0 < 2 ^ (k - 2)) by (apply Z.pow_pos_nonneg; lia).
  assert (Hbounds : 2 ^ 104 <= Z.pos P < 2 ^ 106).
  { subst P. rewrite Pos2Z.inj_mul.
    change (2 ^ 104) with (2 ^ 52 * 2 ^ 52). change (2 ^ 106) with (2 ^ 53 * 2 ^ 53).
    split; [apply Z.mul_le_mono_nonneg; lia | apply Z.mul_lt_mono_nonneg; lia]. }
  assert (HP : Z.pos P = (2 ^ 52 * 2 ^ k + a) * X).
  { subst P. rewrite Pos2Z.inj_mul, Hm2, <- Hpow, <- Hrate. ring. }
  clearbody P.
  remember (2 ^ k) as v eqn:Hv. remember (2 ^ (k - 1)) as u eqn:Hu.
  remember (2 ^ (k - 2)) as t eqn:Ht.
  destruct (Z.lt_ge_cases (Z.pos P) (2 ^ 105)) as [Hlt|Hge].
  - (* 105 bits: 52 are shifted out *)
    destruct (binary_round_aux_shift s P (- (52 + k) + e2) 52)
      as (mx & _ & Hdown & _ & ->); [apply digits2_pos_unique; lia | lia | lia |].
    change (52 - 1) with 51 in Hdown.
    assert (HtX : 4 * (t * X) < 2 ^ 53).
    { change (2 ^ 105) with (2 ^ 52 * 2 ^ 53) in Hlt. nia. }
    assert (HaX : 0 <= a * X < 2 ^ 51).
    { change (2 ^ 53) with (4 * 2 ^ 51) in HtX. nia. }
    assert (Hq : Z.pos P / 2 ^ 52 = X * v).
    { symmetry. apply (Z.div_unique _ _ _ (a * X)); [|rewrite HP; ring].
      left. change (2 ^ 52) with (2 * 2 ^ 51). lia. }
    assert (Hq' : Z.pos P / 2 ^ 51 = 2 * (X * v)).
    { symmetry. apply (Z.div_unique _ _ _ (a * X)); [left; lia|].
      rewrite HP. change (2 ^ 52) with (2 * 2 ^ 51). ring. }
    rewrite Hq', Hq in Hdown. rewrite Hdown by (rewrite Z.odd_mul; reflexivity).
    exists k. split; [lia|]. rewrite <- Hv.
    destruct (Z.ltb_spec (X * v) (2 ^ 53)); [|nia].
    destruct (Z.leb_spec (- (52 + k) + e2 + 52) 971); [|lia].
    f_equal. lia.
  - (* 106 bits: 53 are shifted out *)
    destruct (binary_round_aux_shift s P (- (52 + k) + e2) 53)
      as (mx & _ & Hdown & _ & ->); [apply digits2_pos_unique; lia | lia | lia |].
    change (53 - 1) with 52 in Hdown.
    assert (HtX : 4 * (t * X) < 2 * 2 ^ 53).
    { change (2 ^ 106) with (2 ^ 52 * (2 * 2 ^ 53)) in Hbounds. nia. }
    assert (HaX : 0 <= a * X < 2 ^ 52).
    { change (2 ^ 53) with (2 * 2 ^ 52) in HtX. nia. }
    assert (Hq : Z.pos P / 2 ^ 53 = X * u).
    { symmetry. apply (Z.div_unique _ _ _ (a * X)).
      - left. change (2 ^ 53) with (2 * 2 ^ 52). lia.
      - rewrite HP, Hk1. change (2 ^ 53) with (2 * 2 ^ 52). ring. }
    assert (Hq' : Z.pos P / 2 ^ 52 = 2 * (X * u)).
    { symmetry. apply (Z.div_unique _ _ _ (a * X)); [left; lia|].
      rewrite HP, Hk1. ring. }
    rewrite Hq', Hq in Hdown. rewrite Hdown by (rewrite Z.odd_mul; reflexivity).
    exists (k - 1). split; [lia|]. rewrite <- Hu.
    destruct (Z.ltb_spec (X * u) (2 ^ 53));
      [|change (2 ^ 53) with (2 * 2 ^ 52) in *; nia].
    destruct (Z.leb_spec (- (52 + k) + e2 + 53) 971); [|lia].
    f_equal. lia.
Qed.
End Rounding.

(** ** Tax: exact values and overflow *)

Lemma of_int_finite (s : bool) (m : positive) (e : Z) (n : Z) :
  Float.nearest_int n = S754_finite s m e ->
  Float.of_int n = Return (S754_finite s m e).
Proof. unfold Float.of_int. intros ->. reflexivity. Qed.

Lemma tax_multiple (i : VehicleModelInfo.t) (mr : positive) (c k a N : Z) :
  dict_getitem taxes (VehicleModelInfo.fuel_type i)
  = Return (S754_finite false mr (- (52 + k))) ->
  (Z.pos mr * c = 2 ^ (52 + k) + a)%Z ->
  (2 ^ 52 <= Z.pos mr < 2 ^ 53)%Z ->
  (2 <= k <= 10)%Z -> (0 < c)%Z -> (0 <= a <= 2 ^ (k - 2))%Z ->
  VehicleModelInfo.catalogue_price i = (c * N)%Z ->
  (Z.abs (c * N) < 2 ^ 53)%Z ->
  exists f, VehicleModelInfo.tax i = Return f /\ Float.is_int f N.
Proof.
  intros Hrate Hmr Hnormal Hk Hc Ha Hprice Hbound.
  unfold VehicleModelInfo.tax. rewrite Hrate, Hprice.
  destruct (c * N)%Z as [|pm|pm] eqn:HcN.
  - exists (S754_zero false). split; [reflexivity|]. cbn. nia.
  - destruct (binary_round_normal false pm) as (m2 & e2 & Hround & He2 & Hm2 & Hn2);
      [lia|].
    rewrite (of_int_finite false m2 e2) by exact Hround.
    destruct (mul_rate_exact false mr m2 e2 c k a (N * 2 ^ (- e2))%Z)
      as (j & Hj & ->); try assumption.
    { rewrite Hm2, <- HcN. ring. }
    eexists. split; [reflexivity|]. right. split; [|lia].
    assert (0 < 2 ^ (- e2))%Z by (apply Z.pow_pos_nonneg; lia).
    assert (0 < 2 ^ j)%Z by (apply Z.pow_pos_nonneg; lia).
    cbn [cond_Zopp]. rewrite Z2Pos.id by nia.
    replace (- (e2 - j))%Z with (- e2 + j)%Z by lia.
    rewrite Z.pow_add_r by lia. ring.
  - destruct (binary_round_normal true pm) as (m2 & e2 & Hround & He2 & Hm2 & Hn2);
      [lia|].
    rewrite (of_int_finite true m2 e2) by exact Hround.
    destruct (mul_rate_exact true mr m2 e2 c k a (- N * 2 ^ (- e2))%Z)
      as (j & Hj & ->); try assumption.
    { rewrite Hm2. replace (Z.pos pm) with (- Z.neg pm)%Z by reflexivity.
      rewrite <- HcN. ring. }
    eexists. split; [reflexivity|]. right. split; [|lia].
    assert (0 < 2 ^ (- e2))%Z by (apply Z.pow_pos_nonneg; lia).
    assert (0 < 2 ^ j)%Z by (apply Z.pow_pos_nonneg; lia).
    cbn [cond_Zopp]. rewrite Z2Pos.id by nia.
    replace (- (e2 - j))%Z with (- e2 + j)%Z by lia.
    rewrite Z.pow_add_r by lia. ring.
Qed.

(** X9. For an ELECTRIC model whose price is a multiple of 50 the tax is
    exactly the price divided by 50, and for a PETROL model whose price is
    a multiple of 20 it is exactly the price divided by 20: the rounding of
    the binary64 product loses nothing for these prices (of less than
    2^53 in absolute value). *)
Theorem tax_exact_for_multiples (b m : string) (y N : Z) :
  ((Z.abs (50 * N) < 2 ^ 53)%Z ->
   exists f,
     VehicleModelInfo.tax (VehicleModelInfo.make b m (50 * N) ELECTRIC y) = Return f
     /\ Float.is_int f N)
  /\ ((Z.abs (20 * N) < 2 ^ 53)%Z ->
      exists f,
        VehicleModelInfo.tax (VehicleModelInfo.make b m (20 * N) PETROL y) = Return f
        /\ Float.is_int f N).
Proof.
  split; intros Hbound.
  - apply (tax_multiple _ 5764607523034235 50 6 6 N);
      try reflexivity; try exact Hbound; cbn; lia.
  - apply (tax_multiple _ 7205759403792794 20 5 8 N);
      try reflexivity; try exact Hbound; cbn; lia.
Qed.

Lemma tax_exact_for_multiples_witness :
  exists f,
    VehicleModelInfo.tax (VehicleModelInfo.make "Tesla" "Model Y" 55000 ELECTRIC 2024)
    = Return f
    /\ Float.is_int f 1100.
Proof.
  apply (proj1 (tax_exact_for_multiples "Tesla" "Model Y" 2024 1100)).
  reflexivity.
Defined.

Lemma of_int_range (n : Z) :
  ((Z.abs n < 2 ^ 1024 - 2 ^ 970)%Z -> exists f, Float.of_int n = Return f)
  /\ ((2 ^ 1024 - 2 ^ 970 <= Z.abs n)%Z -> Float.of_int n = Raise OverflowError).
Proof.
  unfold Float.of_int, Float.nearest_int, binary_normalize.
  destruct n as [|pm|pm].
  - split; [eauto | intros H; exfalso; revert H; apply Z.lt_nge; reflexivity].
  - destruct (binary_round_range false pm) as [Hfin Hinf]. split; intros H.
    + destruct (Hfin H) as (m' & e' & ->). eauto.
    + rewrite (Hinf H). reflexivity.
  - destruct (binary_round_range true pm) as [Hfin Hinf]. split; intros H.
    + destruct (Hfin H) as (m' & e' & ->). eauto.
    + rewrite (Hinf H). reflexivity.
Qed.

(** X10. The [tax] property raises [OverflowError] exactly for the prices
    that do not convert to a float, those of absolute value at least
    [2^1024 - 2^970]; for every other price it returns a float, and it
    raises no other exception. *)
Theorem tax_overflow (i : VehicleModelInfo.t) :
  ((Z.abs (VehicleModelInfo.catalogue_price i) < 2 ^ 1024 - 2 ^ 970)%Z ->
   exists f, VehicleModelInfo.tax i = Return f)
  /\ ((2 ^ 1024 - 2 ^ 970 <= Z.abs (VehicleModelInfo.catalogue_price i))%Z ->
      VehicleModelInfo.tax i = Raise OverflowError).
Proof.
  rewrite tax_eq.
  destruct (of_int_range (VehicleModelInfo.catalogue_price i)) as [Hfin Hinf].
  split; intros H.
  - destruct (Hfin H) as (f & ->). eauto.
  - rewrite (Hinf H). reflexivity.
Qed.

Lemma tax_overflow_witness :
  VehicleModelInfo.tax
    (VehicleModelInfo.make "Bugatti" "Chiron" (2 ^ 1024 - 2 ^ 970) PETROL 2024)
  = Raise OverflowError.
Proof.
  apply (proj2 (tax_overflow
                  (VehicleModelInfo.make "Bugatti" "Chiron" (2 ^ 1024 - 2 ^ 970)
                     PETROL 2024))).
  vm_compute. discriminate.
Defined.

(** ** Text of a vehicle, and the demonstration *)

Section PrintingProperties.
Variable float_str : Float.t -> string.

(** X11. A model of any price can be added and a vehicle registered for
    it, but the text of the vehicle ([Vehicle.__str__], which evaluates the
    tax) exists only when the price converts to a float: then it is
    "Id: ... License plate: ... Info: brand: ... - type: ... - tax: ...",
    and for a price of absolute value at least [2^1024 - 2^970] it raises
    [OverflowError]. *)
Theorem text_of_registered_vehicle
    (b m : string) (i : VehicleModelInfo.t) (w : world) :
  vehicle_models (self w) !! (b, m) = Some i ->
  exists v w',
    register_vehicle b m w = (Return v, w')
    /\ Vehicle.info v = i
    /\ ((Z.abs (VehicleModelInfo.catalogue_price i) < 2 ^ 1024 - 2 ^ 970)%Z ->
        exists tax,
          VehicleModelInfo.tax i = Return tax
          /\ Vehicle_str float_str v
             = Return ("Id: " +:+ Vehicle.vehicle_id v
                       +:+ ". License plate: " +:+ Vehicle.license_plate v
                       +:+ ". Info: "
                       +:+ ("brand: " +:+ VehicleModelInfo.brand i
                            +:+ " - type: " +:+ VehicleModelInfo.model i
                            +:+ " - tax: " +:+ float_str tax)
                       +:+ "."))
    /\ ((2 ^ 1024 - 2 ^ 970 <= Z.abs (VehicleModelInfo.catalogue_price i))%Z ->
        VehicleModelInfo_str float_str i = Raise OverflowError
        /\ Vehicle_str float_str v = Raise OverflowError).
Proof.
  intros Hfound.
  destruct (register_vehicle_found b m i w Hfound)
    as (cs & d1 & d2 & y1 & y2 & Heq & _).
  eexists _, _. split; [exact Heq|]. cbn [Vehicle.info]. split; [reflexivity|].
  unfold Vehicle_str, VehicleModelInfo_str. cbn [Vehicle.info].
  destruct (of_int_range (VehicleModelInfo.catalogue_price i)) as [Hfin Hinf].
  rewrite tax_eq. split; intros H.
  - destruct (Hfin H) as (f & ->). eexists. split; reflexivity.
  - rewrite (Hinf H). split; reflexivity.
Qed.
End PrintingProperties.

Lemma text_of_registered_vehicle_witness :
  exists v w',
    register_vehicle "Bugatti" "Chiron"
      (snd (add_vehicle_model_info
              (VehicleModelInfo.make "Bugatti" "Chiron" (2 ^ 1024) PETROL 2024)
              sample_world))
    = (Return v, w')
    /\ Vehicle_str (fun _ => EmptyString) v = Raise OverflowError.
Proof.
  destruct (text_of_registered_vehicle (fun _ => EmptyString) "Bugatti" "Chiron"
              (VehicleModelInfo.make "Bugatti" "Chiron" (2 ^ 1024) PETROL 2024)
              (snd (add_vehicle_model_info
                      (VehicleModelInfo.make "Bugatti" "Chiron" (2 ^ 1024) PETROL 2024)
                      sample_world)))
    as (v & w' & Hreg & _ & _ & Hraise).
  - rewrite add_vehicle_model_info_eq. apply lookup_insert_eq.
  - exists v, w'. split; [exact Hreg|]. apply Hraise. vm_compute. discriminate.
Defined.

Section MainProperties.
Variable float_str : Float.t -> string.

Lemma on_registry_eq {A} (c : M world A) (out : list string) (w : world) :
  on_registry c (Console out w) = (fst (c w), Console out (snd (c w))).
Proof. unfold on_registry. cbn [registry stdout]. destruct (c w). reflexivity. Qed.

(** [main] after its four insertions. *)
Lemma main_after_insertions
    (cls : VehicleModelInfo.defaults) (out : list string) (w0 : world) :
  main float_str cls (Console out w0)
  = (status <- on_registry online_status ;;
     _ <- print ("Registry status: " +:+ RegistryStatus_str status) ;;
     vehicle <- on_registry (register_vehicle "Volkswagen" "ID3") ;;
     text <- lift (Vehicle_str float_str vehicle) ;;
     print text) (Console out (main_world cls (rng w0))).
Proof. reflexivity. Qed.

(** X12. [main] raises nothing, whatever the generator draws and whenever
    the class was defined: it prints the line
    "Registry status: RegistryStatus.ONLINE" and then the text of a vehicle
    registered for the Volkswagen ID3, with an identifier of 12 uppercase
    letters, a licence plate of the form XX-DD-YY and a tax of exactly 700.
    The registry it leaves is online and holds four entries: Tesla Model 3
    (50000, ELECTRIC), Volkswagen ID3 (35000, ELECTRIC), BMW 520e (60000,
    PETROL) and Tesla Model Y (55000, ELECTRIC), each with the year of the
    class definition; sixteen draws were used. *)
Theorem main_runs (now : datetime) (out : list string) (w0 : world) :
  exists vid plate tax final,
    main float_str (VehicleModelInfo.class_body now) (Console out w0)
    = (Return tt,
       Console
         ((out ++ ["Registry status: RegistryStatus.ONLINE"])
          ++ ["Id: " +:+ vid +:+ ". License plate: " +:+ plate
              +:+ ". Info: "
              +:+ ("brand: Volkswagen - type: ID3 - tax: " +:+ float_str tax)
              +:+ "."])
         final)
    /\ String.length vid = 12%nat
    /\ all_chars is_upper vid = true
    /\ plate_format vid plate = true
    /\ Float.is_int tax 700
    /\ rng final = (fun k => rng w0 (16 + k)%nat)
    /\ online (self final) = true
    /\ size (vehicle_models (self final)) = 4%nat
    /\ vehicle_models (self final) !! ("Tesla", "Model 3")
       = Some (VehicleModelInfo.make "Tesla" "Model 3" 50000 ELECTRIC (year now))
    /\ vehicle_models (self final) !! ("Volkswagen", "ID3")
       = Some (VehicleModelInfo.make "Volkswagen" "ID3" 35000 ELECTRIC (year now))
    /\ vehicle_models (self final) !! ("BMW", "520e")
       = Some (VehicleModelInfo.make "BMW" "520e" 60000 PETROL (year now))
    /\ vehicle_models (self final) !! ("Tesla", "Model Y")
       = Some (VehicleModelInfo.make "Tesla" "Model Y" 55000 ELECTRIC (year now)).
Proof.
  set (cls := VehicleModelInfo.class_body now).
  rewrite main_after_insertions.
  set (W := main_world cls (rng w0)).
  assert (Hmodels :
            vehicle_models (self W)
            = <[("Tesla", "Model Y")
                := VehicleModelInfo.make "Tesla" "Model Y" 55000 ELECTRIC (year now)]>
                (<[("BMW", "520e")
                   := VehicleModelInfo.make "BMW" "520e" 60000 PETROL (year now)]>
                   (<[("Volkswagen", "ID3")
                      := VehicleModelInfo.make "Volkswagen" "ID3" 35000 ELECTRIC
                           (year now)]>
                      (<[("Tesla", "Model 3")
                         := VehicleModelInfo.make "Tesla" "Model 3" 50000 ELECTRIC
                              (year now)]> ∅)))).
  { subst W. unfold main_world, main_calls. cbn [run fold_left perform].
    rewrite !add_vehicle_model_info_eq. reflexivity. }
  assert (Hlook : vehicle_models (self W) !! ("Volkswagen", "ID3")
                  = Some (VehicleModelInfo.make "Volkswagen" "ID3" 35000 ELECTRIC
                            (year now))).
  { rewrite Hmodels.
    rewrite lookup_insert_ne by discriminate.
    rewrite lookup_insert_ne by discriminate.
    apply lookup_insert_eq. }
  assert (Hstatus : online_status W = (Return ONLINE, W)).
  { rewrite online_status_eq.
    replace (online (self W)) with true by reflexivity. cbn [negb].
    destruct (Nat.eqb_spec (size (vehicle_models (self W))) 0) as [Hz|]; [|reflexivity].
    apply map_size_empty_iff in Hz. rewrite Hz, lookup_empty in Hlook.
    discriminate Hlook. }
  assert (Honline : online (self W) = true) by reflexivity.
  assert (Hrng : rng W = rng w0) by reflexivity.
  clearbody W.
  destruct (register_vehicle_found _ _ _ W Hlook)
    as (cs & d1 & d2 & y1 & y2 & Hreg & Hlen & Hup & Hd1 & Hd2 & Hy1 & Hy2).
  rewrite Hrng in Hreg.
  unfold bind at 1. rewrite on_registry_eq, Hstatus. cbn [fst snd].
  unfold bind at 1. unfold print at 1. cbn [stdout registry].
  unfold bind at 1. rewrite on_registry_eq, Hreg. cbn [fst snd].
  unfold bind, lift, print, Vehicle_str, VehicleModelInfo_str.
  cbn [Vehicle.info Vehicle.vehicle_id Vehicle.license_plate stdout registry
       VehicleModelInfo.brand VehicleModelInfo.model].
  replace (VehicleModelInfo.tax
             (VehicleModelInfo.make "Volkswagen" "ID3" 35000 ELECTRIC (year now)))
    with (Return (S754_finite false 6157265115545600 (-43)))
    by (vm_compute; reflexivity).
  eexists _, _, _, (World (self W) (fun k => rng w0 (16 + k)%nat)).
  split; [reflexivity|].
  split; [rewrite length_of_list; exact Hlen|].
  split; [apply all_chars_of_list; exact Hup|].
  split.
  { destruct cs as [|x1 [|x2 cs]]; try discriminate Hlen.
    apply plate_text_format; assumption. }
  split; [right; split; reflexivity|].
  cbn [rng self]. split; [reflexivity|]. split; [exact Honline|].
  rewrite Hmodels. split.
  { rewrite !map_size_insert_None, map_size_empty; [reflexivity|..].
    - apply lookup_empty.
    - rewrite lookup_insert_ne by discriminate. apply lookup_empty.
    - rewrite !lookup_insert_ne by discriminate. apply lookup_empty.
    - rewrite !lookup_insert_ne by discriminate. apply lookup_empty. }
  split.
  { rewrite !lookup_insert_ne by discriminate. apply lookup_insert_eq. }
  split.
  { rewrite !lookup_insert_ne by discriminate. apply lookup_insert_eq. }
  split.
  { rewrite lookup_insert_ne by discriminate. apply lookup_insert_eq. }
  apply lookup_insert_eq.
Qed.
End MainProperties.

(** * The tax as a rounded product *)

Section Nearest.
Local Open Scope Z_scope.






End Nearest.

Section TaxRounding.
Local Open Scope Z_scope.




End TaxRounding.



